(** * Tutor Connect (src/App.tsx): a shallow embedding and its properties

    The application is a single React file.  Its logic is embedded as pure
    functions over explicit component state:

    - the parts of ECMAScript the handlers call (strings as sequences of
      UTF-16 code units, numbers that are integers or NaN, the [Date]
      algorithms of ECMA-262) are in the first part of the file;
    - each event handler becomes a function from the state of its component
      to the new state and the list of observable events (requests sent to
      the Supabase client, console errors);
    - the Supabase client is the external collaborator: a record of reply
      functions, one per request shape the file builds.

    An [async] handler is run to completion with the reply of the client, so
    the interleaving of pending requests is outside this model. *)

From Stdlib Require Import ZArith Lia String Ascii DecimalString.
From stdpp Require Import gmap list list_numbers.

Local Open Scope Z_scope.

(** ** ECMAScript strings *)

(** A String value is a sequence of UTF-16 code units. *)
Abbreviation jsstring := (list N).

(** The String value of an ASCII literal of the source. *)
Definition js (s : string) : jsstring :=
  N_of_ascii <$> list_ascii_of_string s.

(** [WhiteSpace] and [LineTerminator] code points (ECMA-262 12.2, 12.3), the
    ones [String.prototype.trim] strips.  All of them are single code units. *)
Definition isWhiteSpace (c : N) : bool :=
  (c =? 9)%N || (c =? 10)%N || (c =? 11)%N || (c =? 12)%N || (c =? 13)%N
  || (c =? 32)%N || (c =? 160)%N || (c =? 5760)%N
  || ((8192 <=? c)%N && (c <=? 8202)%N)
  || (c =? 8232)%N || (c =? 8233)%N || (c =? 8239)%N || (c =? 8287)%N
  || (c =? 12288)%N || (c =? 65279)%N.

Fixpoint trimStart (s : jsstring) : jsstring :=
  match s with
  | c :: s' => if isWhiteSpace c then trimStart s' else s
  | [] => []
  end.

Definition trimEnd (s : jsstring) : jsstring := reverse (trimStart (reverse s)).

(** [String.prototype.trim] *)
Definition trim (s : jsstring) : jsstring := trimEnd (trimStart s).

(** [String.prototype.padStart(targetLength, padString)] *)
Definition padStart (targetLength : nat) (padString : jsstring) (s : jsstring) : jsstring :=
  let fillLen := (targetLength - length s)%nat in
  take fillLen (concat (replicate fillLen padString)) ++ s.

(** A String is truthy when it is not empty. *)
Definition truthy_string (s : jsstring) : bool :=
  match s with [] => false | _ :: _ => true end.

(** ** ECMAScript numbers *)

(** The numbers of this program are integers (years, months, days, time
    values, all far below 2^53 in absolute value) or NaN.  [None] is NaN. *)
Abbreviation Number := (option Z).

Definition NaN : Number := None.

(** [x + k] for a constant [k]: NaN is absorbing. *)
Definition num_add (x : Number) (k : Z) : Number := (λ v, v + k) <$> x.

(** [Number::toString] in radix 10, on integers and NaN (below 10^21 in
    absolute value the result is the plain decimal numeral). *)
Definition String_of_Z (n : Z) : jsstring :=
  js (NilZero.string_of_int (Z.to_int n)).

Definition ToString (x : Number) : jsstring :=
  match x with
  | Some n => String_of_Z n
  | None => js "NaN"
  end.

(** ** ECMAScript Date (ECMA-262 21.4.1)

    Time values are integers of milliseconds since the epoch, in UTC. *)

Definition msPerDay : Z := 86400000.
Definition msPerHour : Z := 3600000.
Definition msPerMinute : Z := 60000.
Definition msPerSecond : Z := 1000.

Definition Day (t : Z) : Z := t / msPerDay.
Definition TimeWithinDay (t : Z) : Z := t mod msPerDay.

Definition DaysInYear (y : Z) : Z :=
  if negb (y mod 4 =? 0) then 365
  else if negb (y mod 100 =? 0) then 366
  else if negb (y mod 400 =? 0) then 365
  else 366.

Definition DayFromYear (y : Z) : Z :=
  365 * (y - 1970) + (y - 1969) / 4 - (y - 1901) / 100 + (y - 1601) / 400.

Definition TimeFromYear (y : Z) : Z := msPerDay * DayFromYear y.

(** The year of a day number.  ECMA-262 defines [YearFromTime(t)] as the
    largest integer [y] with [TimeFromYear(y) <= t]; here it is computed from
    the mean length of the Gregorian year and corrected by one
    ([YearFromDay_spec] and [YearFromDay_unique] show it is that year). *)
Definition YearFromDay (d : Z) : Z :=
  let y := 1970 + (400 * d) / 146097 in
  if DayFromYear (y + 1) <=? d then y + 1
  else if d <? DayFromYear y then y - 1
  else y.

Definition YearFromTime (t : Z) : Z := YearFromDay (Day t).

Definition InLeapYear (t : Z) : Z :=
  if DaysInYear (YearFromTime t) =? 366 then 1 else 0.

Definition DayWithinYear (t : Z) : Z := Day t - DayFromYear (YearFromTime t).

Definition MonthFromTime (t : Z) : Z :=
  let d := DayWithinYear t in
  let l := InLeapYear t in
  if d <? 31 then 0
  else if d <? 59 + l then 1
  else if d <? 90 + l then 2
  else if d <? 120 + l then 3
  else if d <? 151 + l then 4
  else if d <? 181 + l then 5
  else if d <? 212 + l then 6
  else if d <? 243 + l then 7
  else if d <? 273 + l then 8
  else if d <? 304 + l then 9
  else if d <? 334 + l then 10
  else 11.

Definition DateFromTime (t : Z) : Z :=
  let d := DayWithinYear t in
  let l := InLeapYear t in
  match MonthFromTime t with
  | 0 => d + 1
  | 1 => d - 30
  | 2 => d - 58 - l
  | 3 => d - 89 - l
  | 4 => d - 119 - l
  | 5 => d - 150 - l
  | 6 => d - 180 - l
  | 7 => d - 211 - l
  | 8 => d - 242 - l
  | 9 => d - 272 - l
  | 10 => d - 303 - l
  | _ => d - 333 - l
  end.

Definition WeekDay (t : Z) : Z := (Day t + 4) mod 7.

Definition MakeTime (hour min sec ms : Z) : Z :=
  hour * msPerHour + min * msPerMinute + sec * msPerSecond + ms.

(** Day number of the first day of month [mn] (0..11) in year [ym]. *)
Definition DayFromYearMonth (ym mn : Z) : Z :=
  let l := if DaysInYear ym =? 366 then 1 else 0 in
  DayFromYear ym +
  match mn with
  | 0 => 0
  | 1 => 31
  | 2 => 59 + l
  | 3 => 90 + l
  | 4 => 120 + l
  | 5 => 151 + l
  | 6 => 181 + l
  | 7 => 212 + l
  | 8 => 243 + l
  | 9 => 273 + l
  | 10 => 304 + l
  | _ => 334 + l
  end.

(** [MakeDay(year, month, date)]: months outside 0..11 carry into the year,
    the date is an offset from the first of the month. *)
Definition MakeDay (year month date : Z) : Z :=
  let ym := year + month / 12 in
  let mn := month mod 12 in
  DayFromYearMonth ym mn + date - 1.

Definition MakeDate (day time : Z) : Z := day * msPerDay + time.

(** [TimeClip]: a time value is at most 8.64e15 ms away from the epoch. *)
Definition maxTime : Z := 8640000000000000.

Definition TimeClip (time : Z) : Number :=
  if Z.abs time <=? maxTime then Some time else NaN.

(** The host's time zone.  ECMA-262 leaves the local time zone adjustment
    to the implementation: [LocalTZA(t, isUTC)] is the offset of local time
    from UTC, in milliseconds, in effect at the time value [t] when [isUTC]
    is true, and at the local time [t] when it is false.  A local time that
    a transition of the zone skips (the clocks are put forward, or the zone
    moves across the date line) or repeats is read with the offset before
    the transition.  The offsets of the zones of the time zone database are
    all shorter than a day. *)
Class TimeZone := {
  LocalTZA : Z → bool → Z;
  LocalTZA_range : ∀ t isUTC, - msPerDay < LocalTZA t isUTC < msPerDay
}.

(** [LocalTime(t)] and [UTC(t)].  As ECMA-262 notes, [LocalTime(UTC(t))] is
    not always [t]: it is another time when [t] is a local time that the
    zone skips. *)
Definition LocalTime `{TimeZone} (t : Z) : Z := t + LocalTZA t true.
Definition UTC `{TimeZone} (t : Z) : Z := t - LocalTZA t false.

(** A Date object is its time value; NaN is the Invalid Date.  Dates are
    used as values here: the one mutation in the source ([setMonth]) is on a
    fresh copy. *)
Abbreviation Date := (option Z) (only parsing).

(** [new Date(year, month, date)]: a year from 0 to 99 stands for 1900+year
    (ECMA-262 21.4.2.1, step 5.k). *)
Definition Date_new `{TimeZone} (year month date : Number) : Date :=
  y ← year; m ← month; dt ← date;
  let yr := if (0 <=? y) && (y <=? 99) then 1900 + y else y in
  TimeClip (UTC (MakeDate (MakeDay yr m dt) (MakeTime 0 0 0 0))).

Definition getFullYear `{TimeZone} (d : Date) : Number :=
  (λ t, YearFromTime (LocalTime t)) <$> d.
Definition getMonth `{TimeZone} (d : Date) : Number :=
  (λ t, MonthFromTime (LocalTime t)) <$> d.
Definition getDate `{TimeZone} (d : Date) : Number :=
  (λ t, DateFromTime (LocalTime t)) <$> d.
Definition getDay `{TimeZone} (d : Date) : Number :=
  (λ t, WeekDay (LocalTime t)) <$> d.

(** [Date.prototype.setMonth(month, date)] *)
Definition setMonth `{TimeZone} (d : Date) (month date : Number) : Date :=
  t ← d; m ← month; dt ← date;
  let t' := LocalTime t in
  TimeClip (UTC (MakeDate (MakeDay (YearFromTime t') m dt) (TimeWithinDay t'))).

Definition dayNames : list jsstring :=
  js <$> ["Sun"; "Mon"; "Tue"; "Wed"; "Thu"; "Fri"; "Sat"]%string.
Definition monthNames : list jsstring :=
  js <$> ["Jan"; "Feb"; "Mar"; "Apr"; "May"; "Jun";
          "Jul"; "Aug"; "Sep"; "Oct"; "Nov"; "Dec"]%string.

(** [Date.prototype.toDateString()] (ECMA-262 21.4.4.35, DateString) *)
Definition toDateString `{TimeZone} (d : Date) : jsstring :=
  match d with
  | None => js "Invalid Date"
  | Some tv =>
      let t := LocalTime tv in
      let yv := YearFromTime t in
      default [] (dayNames !! Z.to_nat (WeekDay t)) ++ js " "
      ++ default [] (monthNames !! Z.to_nat (MonthFromTime t)) ++ js " "
      ++ padStart 2 (js "0") (String_of_Z (DateFromTime t)) ++ js " "
      ++ (if 0 <=? yv then [] else js "-")
      ++ padStart 4 (js "0") (String_of_Z (Z.abs yv))
  end.

(** ** The Gregorian calendar, as the specification speaks of it *)

Module Gregorian.

Definition isLeapYear (y : Z) : bool :=
  ((y mod 4 =? 0) && negb (y mod 100 =? 0)) || (y mod 400 =? 0).

(** Number of days of month [m] (0 = January) of year [y]. *)
Definition daysInMonth (y m : Z) : Z :=
  match m with
  | 1 => if isLeapYear y then 29 else 28
  | 3 | 5 | 8 | 10 => 30
  | _ => 31
  end.

(** Weekday (0 = Sunday) of the day [d] of month [m] (0 = January) of year
    [y], by the classical table method (Sakamoto's congruence). *)
Definition weekday (y m d : Z) : Z :=
  let y' := if m <? 2 then y - 1 else y in
  let t := match m with
           | 0 => 0 | 1 => 3 | 2 => 2 | 3 => 5 | 4 => 0 | 5 => 3
           | 6 => 5 | 7 => 1 | 8 => 4 | 9 => 6 | 10 => 2 | _ => 4
           end in
  (y' + y' / 4 - y' / 100 + y' / 400 + t + d) mod 7.

(** The month after and the month before (year, month). *)
Definition nextMonth (ym : Z * Z) : Z * Z :=
  if ym.2 =? 11 then (ym.1 + 1, 0) else (ym.1, ym.2 + 1).
Definition prevMonth (ym : Z * Z) : Z * Z :=
  if ym.2 =? 0 then (ym.1 - 1, 11) else (ym.1, ym.2 - 1).

(** The decimal numeral of an integer, as code units. *)
Definition numeral (n : Z) : list N :=
  N_of_ascii <$> list_ascii_of_string (NilZero.string_of_int (Z.to_int n)).

(** The two decimal digits of a number from 0 to 99. *)
Definition twoDigits (k : Z) : list N :=
  [Z.to_N (48 + k / 10); Z.to_N (48 + k mod 10)].

(** The date string of the day [d] of month [m] (0 = January) of year [y]:
    the year, the month counted from 1 and the day, the last two of two
    digits, joined by '-' (code unit 45).  For a year of four digits this
    is the ISO 8601 date YYYY-MM-DD, the text of a [date] column. *)
Definition isoDate (y m d : Z) : list N :=
  numeral y ++ [45%N] ++ twoDigits (m + 1) ++ [45%N] ++ twoDigits d.

End Gregorian.

(** ** Type definitions (App.tsx, lines 5-23) *)

Inductive AttendanceStatus := present | absent | holiday | extra.

Record Student := {
  id : jsstring;
  name : jsstring;
  created_at : jsstring
}.

(** The interface declares [comment] a string, but the records of the
    mapping are copied from the rows of the response (line 451), whose
    [comment] column may be null: [None] is [null]. *)
Record AttendanceRecord := {
  status : AttendanceStatus;
  comment : option jsstring
}.

(** [CalendarDayData extends AttendanceRecord]: a row of the attendance
    table, with its [status] and [comment] kept together as [record_of]
    (the columns [id] and [created_at] are never read). *)
Record CalendarDayData := {
  student_id : jsstring;
  date : jsstring;
  record_of : AttendanceRecord
}.

(** [AttendanceData]: an object used as a map from date strings to records.
    Its keys are date texts (digits, '-', or "NaN"), none of which is a
    property of [Object.prototype], so reading and writing a key is the
    lookup and insert of a finite map. *)
Abbreviation AttendanceData := (gmap jsstring AttendanceRecord).

#[global] Instance AttendanceStatus_eq_dec : EqDecision AttendanceStatus.
Proof. solve_decision. Defined.
#[global] Instance AttendanceRecord_eq_dec : EqDecision AttendanceRecord.
Proof. solve_decision. Defined.
#[global] Instance Student_eq_dec : EqDecision Student.
Proof. solve_decision. Defined.
#[global] Instance CalendarDayData_eq_dec : EqDecision CalendarDayData.
Proof. solve_decision. Defined.

(** ** Constants (lines 27-43) *)

Definition TUTOR_SECRET_CODE : jsstring := js "Tutor2042!".

Record StatusColor := { bg : jsstring; text : jsstring; border : jsstring; darkBg : jsstring }.

Definition STATUS_COLORS (s : AttendanceStatus) : StatusColor :=
  match s with
  | present => {| bg := js "bg-emerald-100"; text := js "text-emerald-800";
                  border := js "border-emerald-500"; darkBg := js "bg-emerald-500" |}
  | absent => {| bg := js "bg-rose-100"; text := js "text-rose-800";
                 border := js "border-rose-500"; darkBg := js "bg-rose-500" |}
  | holiday => {| bg := js "bg-sky-100"; text := js "text-sky-800";
                  border := js "border-sky-500"; darkBg := js "bg-sky-500" |}
  | extra => {| bg := js "bg-purple-100"; text := js "text-purple-800";
                border := js "border-purple-500"; darkBg := js "bg-purple-500" |}
  end.

(** The text of a status value (the union members are string literals). *)
Definition status_text (s : AttendanceStatus) : jsstring :=
  match s with
  | present => js "present"
  | absent => js "absent"
  | holiday => js "holiday"
  | extra => js "extra"
  end.

(** ** The Supabase client (lines 52-55)

    The client is external.  A value of [SupabaseClient] fixes what it
    replies to each request the file builds; every reply is the
    [{ data, error }] pair of supabase-js, with [None] for [null]. *)

Record Reply (A : Type) := { data : option A; error : option jsstring }.
Arguments data {A} _.
Arguments error {A} _.

Inductive Query :=
| students_select                         (* from('students').select('*').order('name') *)
| students_insert (name : jsstring)       (* from('students').insert({ name }) *)
| attendance_select (student_id gte lte : jsstring)
    (* from('attendance').select('*').eq('student_id', _).gte('date', _).lte('date', _) *)
| attendance_upsert (row : CalendarDayData).
    (* from('attendance').upsert(row, { onConflict: 'student_id,date' }) *)

Record SupabaseClient := {
  on_students_select : Reply (list Student);
  on_students_insert : jsstring → Reply unit;
  on_attendance_select : jsstring → jsstring → jsstring → Reply (list CalendarDayData);
  on_attendance_upsert : CalendarDayData → Reply unit
}.

(** What a handler lets the outside observe. *)
Inductive Event :=
| Sent (q : Query)
| ConsoleError (label : jsstring).

(** Modelled from the spec: the Database Gateway is not part of the
    repository.  Its "select-filtered-by-range" answers with the stored rows
    of the student whose date is between the two bounds, both included;
    [date_le] is the gateway's order on the date column. *)
Definition gateway_select (date_le : jsstring → jsstring → bool)
    (table : list CalendarDayData) (sid gte lte : jsstring) : Reply (list CalendarDayData) :=
  {| data := Some (List.filter
                     (λ r, bool_decide (student_id r = sid)
                           && date_le gte (date r) && date_le (date r) lte)
                     table);
     error := None |}.

(** ** Shared pieces *)

(** The template literal
    [`${year}-${String(month + 1).padStart(2, '0')}-${String(day).padStart(2, '0')}`]
    of lines 222, 491 and 523. *)
Definition dateStr (year month day : Number) : jsstring :=
  ToString year ++ js "-" ++ padStart 2 (js "0") (ToString (num_add month 1))
  ++ js "-" ++ padStart 2 (js "0") (ToString day).

(** Indices of [for (let i = from; i < bound; i++)] and of
    [for (let i = from; i <= bound; i++)]; a comparison with NaN is false. *)
Definition for_lt (from : Z) (bound : Number) : list Z :=
  match bound with
  | Some b => seqZ from (b - from)
  | None => []
  end.
Definition for_le (from : Z) (bound : Number) : list Z :=
  match bound with
  | Some b => seqZ from (b - from + 1)
  | None => []
  end.

(** ** Data hook (lines 58-80) *)

Record Roster := {
  students : list Student;
  isLoaded : bool
}.

Definition fetchStudents (supabase : option SupabaseClient) (h : Roster)
    : Roster * list Event :=
  match supabase with
  | None => (h, [])
  | Some client =>
      let r := on_students_select client in
      match error r with
      | Some _ =>
          ({| students := students h; isLoaded := true |},
           [Sent students_select; ConsoleError (js "Error fetching students:")])
      | None =>
          ({| students := default [] (data r); isLoaded := true |},
           [Sent students_select])
      end
  end.

(** ** Login screen and App (lines 129-151, 606-624) *)

Inductive Role := role_tutor | role_parent.

Inductive User := tutor | parent (s : Student).

Record LoginScreen := {
  tutorCode : jsstring;
  selectedStudent : jsstring;
  login_error : jsstring
}.

Definition setError (msg : jsstring) (ls : LoginScreen) : LoginScreen :=
  {| tutorCode := tutorCode ls; selectedStudent := selectedStudent ls;
     login_error := msg |}.

(** [handleTutorLogin]; [onLogin] is the callback prop, acting on the state
    of the parent. *)
Definition handleTutorLogin {S : Type} (onLogin : Role → option Student → S → S)
    (ls : LoginScreen) (outer : S) : LoginScreen * S :=
  if decide (tutorCode ls = TUTOR_SECRET_CODE) then
    (ls, onLogin role_tutor None outer)
  else
    (setError (js "Invalid secret code.") ls, outer).

Definition handleParentLogin {S : Type} (onLogin : Role → option Student → S → S)
    (students : list Student) (ls : LoginScreen) (outer : S) : LoginScreen * S :=
  match List.find (λ s, bool_decide (id s = selectedStudent ls)) students with
  | Some student => (ls, onLogin role_parent (Some student) outer)
  | None => (setError (js "Please select a student.") ls, outer)
  end.

(** [{error && <p ...>{error}</p>}]: the message shown under the forms. *)
Definition shownError (ls : LoginScreen) : option jsstring :=
  if truthy_string (login_error ls) then Some (login_error ls) else None.

(** [App.handleLogin], on the [user] state of [App]. *)
Definition handleLogin (role : Role) (loggedInUser : option Student)
    (user : option User) : option User :=
  match role, loggedInUser with
  | role_tutor, _ => Some tutor
  | role_parent, Some s => Some (parent s)
  | role_parent, None => user
  end.

(** The login form as [App] mounts it: [<LoginScreen onLogin={handleLogin} />]. *)
Definition App_tutorLogin (ls : LoginScreen) (user : option User)
    : LoginScreen * option User :=
  handleTutorLogin handleLogin ls user.

(** ** Calendar (lines 202-279) *)

Inductive GridItem :=
| blank (key : jsstring)
| day (key : jsstring) (day : Z) (record : option AttendanceRecord).

(** The [useMemo] body of lines 212-227. *)
Definition calendarGrid `{TimeZone} (year month : Number)
    (attendance : AttendanceData) : list GridItem :=
  let firstDayOfMonth := getDay (Date_new year month (Some 1)) in
  let daysInMonth := getDate (Date_new year (num_add month 1) (Some 0)) in
  ((λ i, blank (js "blank-" ++ String_of_Z i)) <$> for_lt 0 firstDayOfMonth)
  ++ ((λ d, let dateStr := dateStr year month (Some d) in
            day dateStr d (attendance !! dateStr)) <$> for_le 1 daysInMonth).

(** What a rendered day cell shows: the parts of its two class names that
    vary, its number, its record block and what a click does. *)
Record DayCell := {
  cell_key : jsstring;
  cell_onClick : option Z;            (* the day passed to onDayClick *)
  cell_interactive : jsstring;        (* isTutor ? 'cursor-pointer ...' : '' *)
  cell_bg : jsstring;                 (* colors ? colors.bg : 'bg-white' *)
  cell_text : jsstring;               (* colors ? colors.text : 'text-slate-700' *)
  cell_today : jsstring;              (* isToday ? 'bg-indigo-600 ...' : '' *)
  cell_day : Z;
  cell_record : option (jsstring * jsstring * option jsstring)
    (* colors.text, status, comment; a null comment renders as no text *)
}.

Inductive Cell :=
| blank_cell (key : jsstring)
| day_cell (c : DayCell).

Record CalendarView := {
  overlay : bool;                     (* isLoading && <spinner> *)
  weekdays : list jsstring;
  cells : list Cell
}.

(** [Calendar]: the props are [currentDate], [attendance], [isTutor] and
    [isLoading] ([onDayClick] is what [cell_onClick] is passed to); [now] is
    the value of [new Date()] read at line 247. *)
Definition Calendar `{TimeZone} (now : Date) (currentDate : Date)
    (attendance : AttendanceData) (isTutor isLoading : bool) : CalendarView :=
  let year := getFullYear currentDate in
  let month := getMonth currentDate in
  {| overlay := isLoading;
     weekdays := js <$> ["Sun"; "Mon"; "Tue"; "Wed"; "Thu"; "Fri"; "Sat"]%string;
     cells :=
       (λ item,
          match item with
          | blank key => blank_cell key
          | day key d record =>
              let colors := STATUS_COLORS ∘ status <$> record in
              let isToday :=
                bool_decide (toDateString now
                             = toDateString (Date_new year month (Some d))) in
              day_cell
                {| cell_key := key;
                   cell_onClick := if isTutor then Some d else None;
                   cell_interactive :=
                     if isTutor then js "cursor-pointer hover:scale-105 hover:shadow-md"
                     else [];
                   cell_bg := from_option bg (js "bg-white") colors;
                   cell_text := from_option text (js "text-slate-700") colors;
                   cell_today :=
                     if isToday
                     then js "bg-indigo-600 text-white rounded-full w-8 h-8 flex items-center justify-center"
                     else [];
                   cell_day := d;
                   cell_record :=
                     (λ r, (text (STATUS_COLORS (status r)), status_text (status r),
                            comment r)) <$> record |}
          end) <$> calendarGrid year month attendance |}.

(** ** Student manager (lines 346-367) *)

(** [addStudent].  [newName] is the state of the component, [onStudentAdded]
    the callback prop, acting on the state of its owner. *)
Definition addStudent {S : Type} (supabase : option SupabaseClient)
    (onStudentAdded : S → S * list Event) (newName : jsstring) (outer : S)
    : jsstring * S * list Event :=
  match supabase with
  | Some client =>
      if truthy_string (trim newName) then
        let q := students_insert (trim newName) in
        match error (on_students_insert client (trim newName)) with
        | Some _ =>
            (newName, outer, [Sent q; ConsoleError (js "Error adding student:")])
        | None =>
            let '(outer', evs) := onStudentAdded outer in
            ([], outer', Sent q :: evs)
        end
      else (newName, outer, [])
  | None => (newName, outer, [])
  end.

(** The manager as [Dashboard] mounts it:
    [<StudentManager onStudentAdded={fetchStudents} />]. *)
Definition Dashboard_addStudent (supabase : option SupabaseClient)
    (newName : jsstring) (roster : Roster) : jsstring * Roster * list Event :=
  addStudent supabase (fetchStudents supabase) newName roster.

(** ** Dashboard (lines 414-525)

    The state of the component and its handlers. *)

Record Dashboard := {
  currentDate : Date;
  selectedStudentId : jsstring;
  attendance : AttendanceData;
  isLoadingAttendance : bool;
  isModalOpen : bool;
  isStudentManagerOpen : bool;
  selectedDay : option Z              (* number | null *)
}.

Definition setCurrentDate (f : Date → Date) (st : Dashboard) : Dashboard :=
  {| currentDate := f (currentDate st);
     selectedStudentId := selectedStudentId st;
     attendance := attendance st;
     isLoadingAttendance := isLoadingAttendance st;
     isModalOpen := isModalOpen st;
     isStudentManagerOpen := isStudentManagerOpen st;
     selectedDay := selectedDay st |}.

Definition setSelectedStudentId (v : jsstring) (st : Dashboard) : Dashboard :=
  {| currentDate := currentDate st;
     selectedStudentId := v;
     attendance := attendance st;
     isLoadingAttendance := isLoadingAttendance st;
     isModalOpen := isModalOpen st;
     isStudentManagerOpen := isStudentManagerOpen st;
     selectedDay := selectedDay st |}.

Definition setAttendance (f : AttendanceData → AttendanceData) (st : Dashboard)
    : Dashboard :=
  {| currentDate := currentDate st;
     selectedStudentId := selectedStudentId st;
     attendance := f (attendance st);
     isLoadingAttendance := isLoadingAttendance st;
     isModalOpen := isModalOpen st;
     isStudentManagerOpen := isStudentManagerOpen st;
     selectedDay := selectedDay st |}.

Definition setIsLoadingAttendance (v : bool) (st : Dashboard) : Dashboard :=
  {| currentDate := currentDate st;
     selectedStudentId := selectedStudentId st;
     attendance := attendance st;
     isLoadingAttendance := v;
     isModalOpen := isModalOpen st;
     isStudentManagerOpen := isStudentManagerOpen st;
     selectedDay := selectedDay st |}.

Definition setIsModalOpen (v : bool) (st : Dashboard) : Dashboard :=
  {| currentDate := currentDate st;
     selectedStudentId := selectedStudentId st;
     attendance := attendance st;
     isLoadingAttendance := isLoadingAttendance st;
     isModalOpen := v;
     isStudentManagerOpen := isStudentManagerOpen st;
     selectedDay := selectedDay st |}.

Definition setSelectedDay (v : option Z) (st : Dashboard) : Dashboard :=
  {| currentDate := currentDate st;
     selectedStudentId := selectedStudentId st;
     attendance := attendance st;
     isLoadingAttendance := isLoadingAttendance st;
     isModalOpen := isModalOpen st;
     isStudentManagerOpen := isStudentManagerOpen st;
     selectedDay := v |}.

(** The two bounds of lines 435-437. *)
Definition firstDay (year month : Number) : jsstring :=
  ToString year ++ js "-" ++ padStart 2 (js "0") (ToString (num_add month 1))
  ++ js "-01".

Definition lastDayOfMonth `{TimeZone} (year month : Number) : jsstring :=
  let lastDay := getDate (Date_new year (num_add month 1) (Some 0)) in
  ToString year ++ js "-" ++ padStart 2 (js "0") (ToString (num_add month 1))
  ++ js "-" ++ padStart 2 (js "0") (ToString lastDay).

(** The loop of lines 449-452: a later row replaces an earlier one of the
    same date. *)
Definition newAttendanceData (rows : list CalendarDayData) : AttendanceData :=
  foldl (λ acc record, <[date record := record_of record]> acc) ∅ rows.

(** [fetchAttendanceForMonth(studentId, date)] *)
Definition fetchAttendanceForMonth `{TimeZone} (supabase : option SupabaseClient)
    (studentId : jsstring) (date : Date) (st : Dashboard) : Dashboard * list Event :=
  match supabase with
  | Some client =>
      if truthy_string studentId then
        let st := setIsLoadingAttendance true st in
        let year := getFullYear date in
        let month := getMonth date in
        let gte := firstDay year month in
        let lte := lastDayOfMonth year month in
        let r := on_attendance_select client studentId gte lte in
        let '(st, evs) :=
          match error r, data r with
          | None, Some rows =>
              (setAttendance (λ _, newAttendanceData rows) st, [])
          | _, _ =>
              (* [throw error], or iterating over a null [data] *)
              (st, [ConsoleError (js "Error fetching attendance:")])
          end in
        (setIsLoadingAttendance false st,
         Sent (attendance_select studentId gte lte) :: evs)
      else (st, [])
  | None => (st, [])
  end.

(** The effect of lines 461-468; it runs after a render in which
    [selectedStudentId] or [currentDate] changed. *)
Definition attendanceEffect `{TimeZone} (supabase : option SupabaseClient)
    (st : Dashboard) : Dashboard * list Event :=
  if truthy_string (selectedStudentId st) then
    fetchAttendanceForMonth supabase (selectedStudentId st) (currentDate st) st
  else
    (setIsLoadingAttendance false (setAttendance (λ _, ∅) st), []).

(** [changeMonth(delta)] *)
Definition changeMonth `{TimeZone} (delta : Z) (st : Dashboard) : Dashboard :=
  setCurrentDate
    (λ prev,
       let newDate := prev in
       setMonth newDate (num_add (getMonth newDate) delta) (Some 1))
    st.

(** [handleDayClick(day)] *)
Definition handleDayClick (d : Z) (st : Dashboard) : Dashboard :=
  setIsModalOpen true (setSelectedDay (Some d) st).

(** [selectedDay] is truthy: neither [null] nor 0. *)
Definition truthy_day (d : option Z) : bool :=
  match d with
  | Some v => negb (v =? 0)
  | None => false
  end.

(** The date string of the selected day in the month on view (lines 491 and
    523; [selectedDay] is a number where the two lines are reached). *)
Definition selectedDateStr `{TimeZone} (st : Dashboard) : jsstring :=
  dateStr (getFullYear (currentDate st)) (getMonth (currentDate st))
          (selectedDay st).

(** The row of lines 492-497. *)
Definition upsertRow `{TimeZone} (record : AttendanceRecord) (st : Dashboard)
    : CalendarDayData :=
  {| student_id := selectedStudentId st; date := selectedDateStr st;
     record_of := record |}.

(** [handleSaveAttendance(record)] *)
Definition handleSaveAttendance `{TimeZone} (supabase : option SupabaseClient)
    (record : AttendanceRecord) (st : Dashboard) : Dashboard * list Event :=
  match supabase with
  | Some client =>
      if truthy_day (selectedDay st) then
        let dateStr := selectedDateStr st in
        let row := upsertRow record st in
        let '(st', evs) :=
          match error (on_attendance_upsert client row) with
          | Some _ => (st, [ConsoleError (js "Error saving attendance:")])
          | None => (setAttendance (λ prev, <[dateStr := record]> prev) st, [])
          end in
        (setSelectedDay None (setIsModalOpen false st'),
         Sent (attendance_upsert row) :: evs)
      else (st, [])
  | None => (st, [])
  end.

(** [currentRecordForModal] (lines 521-525) *)
Definition currentRecordForModal `{TimeZone} (st : Dashboard) : option AttendanceRecord :=
  if truthy_day (selectedDay st) && truthy_string (selectedStudentId st) then
    attendance st !! selectedDateStr st
  else None.

(** What the user can do on the dashboard, and the state after the render
    that follows: the attendance effect runs again when one of its
    dependencies changed ([changeMonth] always stores a new Date object, a
    student id is compared by value). *)
Inductive Action :=
| ClickMonth (delta : Z)
| SelectStudent (id : jsstring)
| ClickDay (d : Z)
| CloseModal
| Save (record : AttendanceRecord).

Definition Dashboard_step `{TimeZone} (supabase : option SupabaseClient)
    (a : Action) (st : Dashboard) : Dashboard * list Event :=
  match a with
  | ClickMonth delta => attendanceEffect supabase (changeMonth delta st)
  | SelectStudent sid =>
      if decide (sid = selectedStudentId st) then (st, [])
      else attendanceEffect supabase (setSelectedStudentId sid st)
  | ClickDay d => (handleDayClick d st, [])
  | CloseModal => (setIsModalOpen false st, [])
  | Save record => handleSaveAttendance supabase record st
  end.

(** ** Attendance modal (lines 282-303) *)

(** The working state of the modal. *)
Record AttendanceModal := {
  modal_status : AttendanceStatus;
  modal_comment : jsstring
}.

(** The effect of lines 293-299: when the modal is open, the working state
    is seeded from [currentRecord],
    [currentRecord?.status || 'present'] and [currentRecord?.comment || '']
    (every status is a non-empty string; a null comment and an empty one
    both give the empty string). *)
Definition modalEffect (isOpen : bool) (currentRecord : option AttendanceRecord)
    (ms : AttendanceModal) : AttendanceModal :=
  if isOpen then
    {| modal_status := from_option status present currentRecord;
       modal_comment :=
         match currentRecord ≫= comment with
         | Some c => if truthy_string c then c else []
         | None => []
         end |}
  else ms.

(** [handleSave]; [onSave] is the callback prop, acting on the state of the
    owner. *)
Definition handleSave {S : Type} (onSave : AttendanceRecord → S → S * list Event)
    (ms : AttendanceModal) (outer : S) : S * list Event :=
  onSave {| status := modal_status ms; comment := Some (modal_comment ms) |} outer.

(** ** More of the dashboard *)

(** The effect of lines 470-474, on the roster the dashboard is given. *)
Definition selectionEffect (isTutor : bool) (students : list Student)
    (st : Dashboard) : Dashboard :=
  match students with
  | first :: _ =>
      if isTutor
         && negb (bool_decide
                    (is_Some (List.find (λ s, bool_decide (id s = selectedStudentId st))
                                        students)))
      then setSelectedStudentId (id first) st
      else st
  | [] => st
  end.

(** [selectedStudentName] (lines 509-514), with
    [students.find(...)?.name || 'No students']. *)
Definition selectedStudentName (user : User) (students : list Student)
    (st : Dashboard) : jsstring :=
  match user with
  | tutor =>
      match List.find (λ s, bool_decide (id s = selectedStudentId st)) students with
      | Some s => if truthy_string (name s) then name s else js "No students"
      | None => js "No students"
      end
  | parent s => name s
  end.

(** [selectedDateForModal] (lines 516-519); [None] is [null]. *)
Definition selectedDateForModal `{TimeZone} (st : Dashboard) : option Date :=
  if truthy_day (selectedDay st) then
    Some (Date_new (getFullYear (currentDate st)) (getMonth (currentDate st))
                   (selectedDay st))
  else None.

(** The modal as the dashboard mounts it (lines 585-591), in the render
    that follows a click on a day while the modal is closed: [isOpen]
    changes, so the effect of the modal runs, on [currentRecordForModal]. *)
Definition Dashboard_openDay `{TimeZone} (d : Z) (st : Dashboard)
    (ms : AttendanceModal) : Dashboard * AttendanceModal :=
  let st' := handleDayClick d st in
  (st', modalEffect (isModalOpen st') (currentRecordForModal st') ms).

(** The Save button of the modal: [onSave={handleSaveAttendance}]. *)
Definition Dashboard_saveModal `{TimeZone} (supabase : option SupabaseClient)
    (ms : AttendanceModal) (st : Dashboard) : Dashboard * list Event :=
  handleSave (handleSaveAttendance supabase) ms st.

(** ** More of App (lines 606-642) *)

Definition handleLogout (user : option User) : option User := None.

(** What [App] returns. *)
Inductive Screen :=
| SupabaseSetup_screen
| Connecting_screen
| LoginScreen_screen
| Dashboard_screen (user : User).

Definition App (supabase : option SupabaseClient) (roster : Roster)
    (user : option User) : Screen :=
  match supabase with
  | None => SupabaseSetup_screen
  | Some _ =>
      if negb (isLoaded roster) then Connecting_screen
      else match user with
           | None => LoginScreen_screen
           | Some u => Dashboard_screen u
           end
  end.

(** The parent form as [App] mounts it:
    [<LoginScreen onLogin={handleLogin} students={students} />]. *)
Definition App_parentLogin (students : list Student) (ls : LoginScreen)
    (user : option User) : LoginScreen * option User :=
  handleParentLogin handleLogin students ls user.

(** The two [onChange] handlers of the login forms (lines 168 and 182). *)
Definition onChangeTutorCode (v : jsstring) (ls : LoginScreen) : LoginScreen :=
  {| tutorCode := v; selectedStudent := selectedStudent ls; login_error := [] |}.
Definition onChangeSelectedStudent (v : jsstring) (ls : LoginScreen) : LoginScreen :=
  {| tutorCode := tutorCode ls; selectedStudent := v; login_error := [] |}.

(** ** Vocabulary of the statements *)

(** The month the dashboard shows. *)
Definition viewedMonth `{TimeZone} (st : Dashboard) : option (Z * Z) :=
  y ← getFullYear (currentDate st); m ← getMonth (currentDate st); Some (y, m).

(** A key is a day of month [m] of year [y]. *)
Definition inMonth (y m : Z) (k : jsstring) : Prop :=
  ∃ d, 1 ≤ d ≤ Gregorian.daysInMonth y m ∧ k = dateStr (Some y) (Some m) (Some d).

(** The same as a test: the key is among the date strings of the days of
    the month ([inMonth_test] relates the two). *)
Definition inMonthb (y m : Z) (k : jsstring) : bool :=
  existsb (λ d, bool_decide (k = dateStr (Some y) (Some m) (Some d)))
          (seqZ 1 (Gregorian.daysInMonth y m)).

(** Every key of the mapping is a day of month [m] of year [y]. *)
Definition withinMonth (y m : Z) (a : AttendanceData) : Prop :=
  ∀ k, is_Some (a !! k) → inMonth y m k.

(** Zones with one offset: UTC, and Indian Standard Time (UTC+05:30). *)
Definition tz_UTC : TimeZone :=
  {| LocalTZA := λ _ _, 0;
     LocalTZA_range := ltac:(intros; unfold msPerDay; lia) |}.

Definition tz_IST : TimeZone :=
  {| LocalTZA := λ _ _, 19800000;
     LocalTZA_range := ltac:(intros; unfold msPerDay; lia) |}.

(** The adjustment of a zone with one transition: the offset is [before]
    up to the instant [switch] and [after] from it on.  The local times from
    [switch + before] to [switch + after] are skipped when the offset grows,
    and those from [switch + after] to [switch + before] come twice when it
    shrinks; both are read with the offset [before]. *)
Definition transitionTZA (switch before after : Z) (t : Z) (isUTC : bool) : Z :=
  if t <? (if isUTC then switch else switch + Z.max before after)
  then before else after.

(** Pacific/Kiritimati around its move across the date line: UTC-10:00 until
    the end of December 30, 1994 and UTC+14:00 from then on.  December 31,
    1994 is not a day of this zone. *)
Definition tz_Kiritimati : TimeZone :=
  {| LocalTZA := transitionTZA (MakeDate (MakeDay 1994 11 31) (10 * msPerHour))
                               (-10 * msPerHour) (14 * msPerHour);
     LocalTZA_range :=
       ltac:(intros t b; unfold transitionTZA, msPerHour, msPerDay;
             destruct (_ <? _); lia) |}.

(** America/Asuncion around October 1, 2017: UTC-04:00 until midnight, when
    the clocks are put forward to 01:00, and UTC-03:00 from then on. *)
Definition tz_Asuncion : TimeZone :=
  {| LocalTZA := transitionTZA (MakeDate (MakeDay 2017 9 1) (4 * msPerHour))
                               (-4 * msPerHour) (-3 * msPerHour);
     LocalTZA_range :=
       ltac:(intros t b; unfold transitionTZA, msPerHour, msPerDay;
             destruct (_ <? _); lia) |}.

(** Pacific/Apia around its move across the date line: UTC-10:00 until the
    end of December 29, 2011 and UTC+14:00 from then on.  December 30, 2011
    is not a day of this zone. *)
Definition tz_Apia : TimeZone :=
  {| LocalTZA := transitionTZA (MakeDate (MakeDay 2011 11 30) (10 * msPerHour))
                               (-10 * msPerHour) (14 * msPerHour);
     LocalTZA_range :=
       ltac:(intros t b; unfold transitionTZA, msPerHour, msPerDay;
             destruct (_ <? _); lia) |}.

(** The zone has one offset at all times. *)
Definition fixedOffset `{TimeZone} : Prop :=
  ∀ t t' isUTC isUTC', LocalTZA t isUTC = LocalTZA t' isUTC'.

(** The local time [t] is a local time of the zone: made a time value and
    read back, it is [t] again.  It fails for the local times that a
    transition skips. *)
Definition roundTrips `{TimeZone} (t : Z) : Prop := LocalTime (UTC t) = t.

(** The local time [t], made a time value and read back, is a time of the
    same calendar day.  It fails only where a transition skips [t] over
    midnight. *)
Definition keepsDay `{TimeZone} (t : Z) : Prop := Day (LocalTime (UTC t)) = Day t.

(** The day of number [dn] is a day of the zone: each of its local times is
    read back on that day. *)
Definition dayKept `{TimeZone} (dn : Z) : Prop :=
  ∀ time, 0 ≤ time < msPerDay → keepsDay (MakeDate dn time).

(** Local midnight of the day [dt] of month [m] of year [y]. *)
Definition midnight (y m dt : Z) : Z := MakeDate (MakeDay y m dt) 0.

(** The zone skips the local midnight of no day of the month. *)
Definition monthKept `{TimeZone} (y m : Z) : Prop :=
  ∀ d, 1 ≤ d ≤ Gregorian.daysInMonth y m → keepsDay (midnight y m d).

(** The local time [t] is a time value a Date can hold. *)
Definition representable `{TimeZone} (t : Z) : Prop := Z.abs (UTC t) ≤ maxTime.

(** The grid of a month in the words of the specification: as many leading
    blanks as the weekday index of the 1st (Sunday = 0), then one cell for
    each day 1..daysInMonth with the day number and the record stored under
    the date string of that day, if any. *)
Definition gridOfMonth (y m : Z) (attendance : AttendanceData) : list GridItem :=
  ((λ i, blank (js "blank-" ++ Gregorian.numeral i))
     <$> seqZ 0 (Gregorian.weekday y m 1))
  ++ ((λ d, day (Gregorian.isoDate y m d) d (attendance !! Gregorian.isoDate y m d))
        <$> seqZ 1 (Gregorian.daysInMonth y m)).

(** The key of an item of the grid (the React key of its cell). *)
Definition item_key (item : GridItem) : jsstring :=
  match item with
  | blank key => key
  | day key _ _ => key
  end.

(** An item of the grid with the record of day [d] replaced. *)
Definition with_record (d : Z) (record : AttendanceRecord) (item : GridItem)
    : GridItem :=
  match item with
  | day key d' r => if decide (d' = d) then day key d' (Some record) else item
  | blank _ => item
  end.

(** The record the modal hands to [onSave] when it was opened on the
    stored record [r] and nothing was edited: the status of [r] and its
    comment, the empty string for a null one. *)
Definition unedited (r : AttendanceRecord) : AttendanceRecord :=
  {| status := status r; comment := Some (default [] (comment r)) |}.

(** ** Data of the examples *)

Definition sick : AttendanceRecord :=
  {| status := absent; comment := Some (js "sick") |}.
Definition makeup : AttendanceRecord :=
  {| status := present; comment := Some (js "makeup class") |}.

(** A record as a row with a null comment gives it. *)
Definition no_comment : AttendanceRecord := {| status := holiday; comment := None |}.

Definition march_2024 : AttendanceData := {[ js "2024-03-05" := sick ]}.

(** The mapping after a fetch that brought a row of March 5 with a null
    comment. *)
Definition march_2024_null : AttendanceData := {[ js "2024-03-05" := no_comment ]}.

(** A dashboard on the student "asha", showing the month of [d]. *)
Definition dashboard_on (d : Date) (a : AttendanceData) (selected : option Z)
    : Dashboard :=
  {| currentDate := d; selectedStudentId := js "asha"; attendance := a;
     isLoadingAttendance := false;
     isModalOpen := match selected with Some _ => true | None => false end;
     isStudentManagerOpen := false; selectedDay := selected |}.

(** A client whose requests all succeed, with the given attendance rows, and
    a client whose requests all fail. *)
Definition client_ok (rows : list CalendarDayData) : SupabaseClient :=
  {| on_students_select := {| data := Some []; error := None |};
     on_students_insert := λ _, {| data := None; error := None |};
     on_attendance_select := λ _ _ _, {| data := Some rows; error := None |};
     on_attendance_upsert := λ _, {| data := None; error := None |} |}.

Definition client_down : SupabaseClient :=
  {| on_students_select := {| data := None; error := Some (js "Failed to fetch") |};
     on_students_insert := λ _, {| data := None; error := Some (js "Failed to fetch") |};
     on_attendance_select := λ _ _ _, {| data := None; error := Some (js "Failed to fetch") |};
     on_attendance_upsert := λ _, {| data := None; error := Some (js "Failed to fetch") |} |}.

(** An order on date texts for the examples: the order of the code units,
    which is the order of the dates for texts of the shape YYYY-MM-DD. *)
Fixpoint text_le (a b : jsstring) : bool :=
  match a, b with
  | [], _ => true
  | _ :: _, [] => false
  | x :: a', y :: b' => (x <? y)%N || ((x =? y)%N && text_le a' b')
  end.

Definition table_2024 : list CalendarDayData :=
  [ {| student_id := js "asha"; date := js "2024-03-05"; record_of := sick |};
    {| student_id := js "asha"; date := js "2024-04-02"; record_of := makeup |};
    {| student_id := js "ravi"; date := js "2024-03-05"; record_of := makeup |} ].

(** A client that answers the range request from [table_2024]. *)
Definition client_table : SupabaseClient :=
  {| on_students_select := {| data := Some []; error := None |};
     on_students_insert := λ _, {| data := None; error := None |};
     on_attendance_select := gateway_select text_le table_2024;
     on_attendance_upsert := λ _, {| data := None; error := None |} |}.




Definition roster_2 : Roster :=
  {| students := [ {| id := js "asha"; name := js "Asha"; created_at := [] |};
                   {| id := js "ravi"; name := js "Ravi"; created_at := [] |} ];
     isLoaded := true |}.

(** The working state of a modal left over from an earlier edit. *)
Definition modal_left_over : AttendanceModal :=
  {| modal_status := holiday; modal_comment := js "old text" |}.

(** The cell of March 5, 2024 in the view of the tutor, not today. *)
Definition cell_march_5 : DayCell :=
  {| cell_key := js "2024-03-05";
     cell_onClick := Some 5;
     cell_interactive := js "cursor-pointer hover:scale-105 hover:shadow-md";
     cell_bg := js "bg-rose-100";
     cell_text := js "text-rose-800";
     cell_today := [];
     cell_day := 5;
     cell_record := Some (js "text-rose-800", js "absent", Some (js "sick")) |}.

(** * Properties *)

(** ** The Date algorithms *)

Ltac case_if :=
  match goal with
  | |- context [if ?b then _ else _] => destruct b eqn:?
  end.

Ltac month_cases m :=
  let H := fresh in
  assert (H : m = 0 ∨ m = 1 ∨ m = 2 ∨ m = 3 ∨ m = 4 ∨ m = 5 ∨ m = 6 ∨ m = 7
              ∨ m = 8 ∨ m = 9 ∨ m = 10 ∨ m = 11) by lia;
  repeat (destruct H as [H | H]; [subst m |]); [.. | subst m].

Lemma DayFromYear_step y : DayFromYear (y + 1) = DayFromYear y + DaysInYear y.
Proof.
  unfold DayFromYear, DaysInYear.
  repeat case_if; Z.div_mod_to_equations; lia.
Qed.

Lemma DaysInYear_leap y :
  DaysInYear y = if Gregorian.isLeapYear y then 366 else 365.
Proof.
  unfold DaysInYear, Gregorian.isLeapYear.
  destruct (y mod 4 =? 0) eqn:E4, (y mod 100 =? 0) eqn:E100,
           (y mod 400 =? 0) eqn:E400;
    simpl; try reflexivity; exfalso; Z.div_mod_to_equations; lia.
Qed.

(** [YearFromDay d] is a year that contains day [d] ... *)
Lemma YearFromDay_spec d :
  DayFromYear (YearFromDay d) ≤ d < DayFromYear (YearFromDay d + 1).
Proof.
  unfold YearFromDay, DayFromYear.
  repeat case_if; Z.div_mod_to_equations; lia.
Qed.

Lemma DayFromYear_mono y1 y2 : y1 ≤ y2 → DayFromYear y1 ≤ DayFromYear y2.
Proof. unfold DayFromYear. intros. Z.div_mod_to_equations. lia. Qed.

(** ... and the only one: it is the largest [y] with [DayFromYear y <= d]. *)
Lemma YearFromDay_unique d y :
  DayFromYear y ≤ d < DayFromYear (y + 1) → YearFromDay d = y.
Proof.
  intros Hy. pose proof (YearFromDay_spec d) as Hs.
  destruct (Z.lt_trichotomy (YearFromDay d) y) as [Hlt | [Heq | Hgt]]; [| done |].
  - pose proof (DayFromYear_mono (YearFromDay d + 1) y). lia.
  - pose proof (DayFromYear_mono (y + 1) (YearFromDay d)). lia.
Qed.

Lemma Day_MakeDate dn time :
  0 ≤ time < msPerDay → Day (MakeDate dn time) = dn.
Proof.
  intros. unfold Day, MakeDate, msPerDay in *. Z.div_mod_to_equations. lia.
Qed.

Lemma TimeWithinDay_MakeDate dn time :
  0 ≤ time < msPerDay → TimeWithinDay (MakeDate dn time) = time.
Proof.
  intros. unfold TimeWithinDay, MakeDate, msPerDay in *. Z.div_mod_to_equations. lia.
Qed.

Lemma TimeWithinDay_range t : 0 ≤ TimeWithinDay t < msPerDay.
Proof. unfold TimeWithinDay, msPerDay. Z.div_mod_to_equations. lia. Qed.

Lemma MakeDate_Day t : MakeDate (Day t) (TimeWithinDay t) = t.
Proof. unfold MakeDate, Day, TimeWithinDay, msPerDay. Z.div_mod_to_equations. lia. Qed.

(** A day of a month, as a day number. *)
Lemma MakeDay_in_year y m dt :
  0 ≤ m ≤ 11 → 1 ≤ dt ≤ Gregorian.daysInMonth y m →
  DayFromYear y ≤ MakeDay y m dt < DayFromYear (y + 1).
Proof.
  intros Hm Hd. rewrite DayFromYear_step. unfold MakeDay, DayFromYearMonth.
  unfold Gregorian.daysInMonth in Hd.
  replace (m / 12) with 0 by (Z.div_mod_to_equations; lia).
  replace (m mod 12) with m by (Z.div_mod_to_equations; lia).
  replace (y + 0) with y by lia. rewrite !DaysInYear_leap.
  month_cases m; destruct (Gregorian.isLeapYear y); simpl in *; lia.
Qed.

(** The fields of the day [dt] of month [m] of year [y] are read back. *)
Lemma fields_of_MakeDay y m dt t :
  0 ≤ m ≤ 11 → 1 ≤ dt ≤ Gregorian.daysInMonth y m →
  Day t = MakeDay y m dt →
  YearFromTime t = y ∧ MonthFromTime t = m ∧ DateFromTime t = dt.
Proof.
  intros Hm Hd Ht.
  assert (Hy : YearFromTime t = y).
  { unfold YearFromTime. rewrite Ht. apply YearFromDay_unique.
    by apply MakeDay_in_year. }
  assert (Hl : InLeapYear t = if Gregorian.isLeapYear y then 1 else 0).
  { unfold InLeapYear. rewrite Hy, DaysInYear_leap.
    by destruct (Gregorian.isLeapYear y). }
  assert (Hw : DayWithinYear t = MakeDay y m dt - DayFromYear y).
  { unfold DayWithinYear. by rewrite Hy, Ht. }
  split; [done |].
  unfold DateFromTime, MonthFromTime. rewrite Hl, Hw. clear Hy Hl Hw Ht.
  unfold MakeDay, DayFromYearMonth.
  unfold Gregorian.daysInMonth in Hd.
  replace (m / 12) with 0 by (Z.div_mod_to_equations; lia).
  replace (m mod 12) with m by (Z.div_mod_to_equations; lia).
  replace (y + 0) with y by lia. rewrite !DaysInYear_leap.
  month_cases m; destruct (Gregorian.isLeapYear y); simpl in *;
    repeat case_if; simpl; lia.
Qed.

(** [MakeDay] carries a month of 12 or -1 into the year. *)
Lemma MakeDay_next y m dt :
  0 ≤ m ≤ 11 →
  MakeDay y (m + 1) dt
  = MakeDay (Gregorian.nextMonth (y, m)).1 (Gregorian.nextMonth (y, m)).2 dt.
Proof.
  intros Hm. unfold Gregorian.nextMonth, MakeDay. simpl.
  destruct (m =? 11) eqn:E; simpl.
  - assert (m = 11) by lia. subst m.
    change ((11 + 1) / 12) with 1. change ((11 + 1) mod 12) with 0.
    change (0 / 12) with 0. change (0 mod 12) with 0.
    by replace (y + 1 + 0) with (y + 1) by lia.
  - reflexivity.
Qed.

Lemma MakeDay_prev y m dt :
  0 ≤ m ≤ 11 →
  MakeDay y (m + -1) dt
  = MakeDay (Gregorian.prevMonth (y, m)).1 (Gregorian.prevMonth (y, m)).2 dt.
Proof.
  intros Hm. unfold Gregorian.prevMonth, MakeDay. simpl.
  destruct (m =? 0) eqn:E; simpl.
  - assert (m = 0) by lia. subst m.
    change ((0 + -1) / 12) with (-1). change ((0 + -1) mod 12) with 11.
    change (11 / 12) with 0. change (11 mod 12) with 11.
    by replace (y + -1) with (y - 1 + 0) by lia.
  - reflexivity.
Qed.

(** Day 0 of the next month is the last day of the month. *)
Lemma MakeDay_last y m :
  0 ≤ m ≤ 11 → MakeDay y (m + 1) 0 = MakeDay y m (Gregorian.daysInMonth y m).
Proof.
  intros Hm. rewrite MakeDay_next by done.
  unfold Gregorian.nextMonth, MakeDay, DayFromYearMonth, Gregorian.daysInMonth. simpl.
  destruct (m =? 11) eqn:E; simpl.
  - assert (m = 11) by lia. subst m.
    change (0 / 12) with 0. change (0 mod 12) with 0. change (11 / 12) with 0.
    change (11 mod 12) with 11. simpl.
    replace (y + 1 + 0) with (y + 1) by lia. replace (y + 0) with y by lia.
    rewrite DayFromYear_step, !DaysInYear_leap.
    destruct (Gregorian.isLeapYear y); simpl; lia.
  - assert ((m + 1) / 12 = 0) as -> by (Z.div_mod_to_equations; lia).
    assert ((m + 1) mod 12 = m + 1) as -> by (Z.div_mod_to_equations; lia).
    assert (m / 12 = 0) as -> by (Z.div_mod_to_equations; lia).
    assert (m mod 12 = m) as -> by (Z.div_mod_to_equations; lia).
    replace (y + 0) with y by lia. rewrite !DaysInYear_leap.
    month_cases m; try discriminate; destruct (Gregorian.isLeapYear y); simpl; lia.
Qed.

Lemma daysInMonth_range y m : 28 ≤ Gregorian.daysInMonth y m ≤ 31.
Proof.
  unfold Gregorian.daysInMonth.
  repeat (case_match; try lia).
Qed.

(** The weekday of a day number is the weekday of the calendar. *)
Lemma weekday_of_MakeDay y m dt :
  0 ≤ m ≤ 11 → (MakeDay y m dt + 4) mod 7 = Gregorian.weekday y m dt.
Proof.
  intros Hm. unfold MakeDay, DayFromYearMonth, Gregorian.weekday, DayFromYear.
  replace (m / 12) with 0 by (Z.div_mod_to_equations; lia).
  replace (m mod 12) with m by (Z.div_mod_to_equations; lia).
  replace (y + 0) with y by lia.
  rewrite !DaysInYear_leap. unfold Gregorian.isLeapYear.
  month_cases m; simpl;
    destruct (y mod 4 =? 0) eqn:E4, (y mod 100 =? 0) eqn:E100,
             (y mod 400 =? 0) eqn:E400; simpl;
    Z.div_mod_to_equations; lia.
Qed.

(** From here on the algorithms are used through the lemmas above. *)
Arguments Day : simpl never.
Arguments TimeWithinDay : simpl never.
Arguments DaysInYear : simpl never.
Arguments DayFromYear : simpl never.
Arguments YearFromDay : simpl never.
Arguments YearFromTime : simpl never.
Arguments InLeapYear : simpl never.
Arguments DayWithinYear : simpl never.
Arguments MonthFromTime : simpl never.
Arguments DateFromTime : simpl never.
Arguments WeekDay : simpl never.
Arguments MakeTime : simpl never.
Arguments DayFromYearMonth : simpl never.
Arguments MakeDay : simpl never.
Arguments MakeDate : simpl never.
Arguments TimeClip : simpl never.
Arguments LocalTime : simpl never.
Arguments UTC : simpl never.
Arguments String_of_Z : simpl never.
Arguments ToString : simpl never.
Arguments js : simpl never.
Arguments padStart : simpl never.
Arguments dateStr : simpl never.
Arguments toDateString : simpl never.
Arguments Gregorian.daysInMonth : simpl never.
Arguments Gregorian.weekday : simpl never.

(** ** Date objects *)

Section DateObjects.
Context `{TimeZone}.

(** In a zone of one offset every local time is read back as it is. *)
Lemma fixedOffset_roundTrips t : fixedOffset → roundTrips t.
Proof.
  intros Hfix. unfold roundTrips, LocalTime, UTC.
  rewrite (Hfix (t - LocalTZA t false) t true false). lia.
Qed.

Lemma roundTrips_keepsDay t : roundTrips t → keepsDay t.
Proof. unfold roundTrips, keepsDay. by intros ->. Qed.

Lemma fixedOffset_keepsDay t : fixedOffset → keepsDay t.
Proof. intros. by apply roundTrips_keepsDay, fixedOffset_roundTrips. Qed.

Lemma fixedOffset_dayKept dn : fixedOffset → dayKept dn.
Proof. intros Hfix time _. by apply fixedOffset_keepsDay. Qed.

Lemma fixedOffset_monthKept y m : fixedOffset → monthKept y m.
Proof. intros Hfix d _. by apply fixedOffset_keepsDay. Qed.

(** The fields of a local time that is read back on its day are those of
    the day. *)
Lemma fields_of_kept_day y m dt t :
  0 ≤ m ≤ 11 → 1 ≤ dt ≤ Gregorian.daysInMonth y m →
  Day t = MakeDay y m dt → keepsDay t →
  YearFromTime (LocalTime (UTC t)) = y ∧ MonthFromTime (LocalTime (UTC t)) = m
  ∧ DateFromTime (LocalTime (UTC t)) = dt.
Proof.
  intros Hm Hd Ht Hk. apply fields_of_MakeDay; [done | done |].
  unfold keepsDay in Hk. by rewrite Hk.
Qed.

Lemma TimeClip_representable t : representable t → TimeClip (UTC t) = Some (UTC t).
Proof.
  unfold representable, TimeClip. intros Ht.
  destruct (Z.abs (UTC t) <=? maxTime) eqn:E; [done | lia].
Qed.

Lemma TimeClip_Some t u : TimeClip t = Some u → u = t ∧ Z.abs t ≤ maxTime.
Proof.
  unfold TimeClip. destruct (Z.abs t <=? maxTime) eqn:E; [| done].
  intros [= <-]. split; [done | lia].
Qed.

Lemma MonthFromTime_range t : 0 ≤ MonthFromTime t ≤ 11.
Proof. unfold MonthFromTime. repeat case_if; lia. Qed.

(** Between the years -271820 and 275759 every local time is in range,
    whatever the time zone. *)
Lemma year_window_time y m dt time :
  -271820 ≤ y ≤ 275759 → 0 ≤ m ≤ 11 → 1 ≤ dt ≤ Gregorian.daysInMonth y m →
  0 ≤ time < msPerDay →
  representable (MakeDate (MakeDay y m dt) time).
Proof.
  intros Hy Hm Hd Ht. pose proof (MakeDay_in_year y m dt Hm Hd) as Hin.
  pose proof (DayFromYear_mono (-271820) y ltac:(lia)) as Hlo.
  pose proof (DayFromYear_mono (y + 1) 275760 ltac:(lia)) as Hhi.
  pose proof (LocalTZA_range (MakeDate (MakeDay y m dt) time) false) as Htz.
  change (DayFromYear (-271820)) with (-99999744) in Hlo.
  change (DayFromYear 275760) with 99999744 in Hhi.
  unfold representable, UTC, MakeDate, maxTime, msPerDay in *. lia.
Qed.

Lemma year_window_representable y m dt :
  -271820 ≤ y ≤ 275759 → 0 ≤ m ≤ 11 → 1 ≤ dt ≤ Gregorian.daysInMonth y m →
  representable (midnight y m dt).
Proof. intros. by apply year_window_time. Qed.

(** [new Date(y, m, dt)] for a year that is not read as 1900+y. *)
Lemma Date_new_full_year y m dt :
  ¬ (0 ≤ y ≤ 99) → representable (midnight y m dt) →
  Date_new (Some y) (Some m) (Some dt) = Some (UTC (midnight y m dt)).
Proof.
  intros Hy Hr. unfold Date_new. simpl.
  assert ((0 <=? y) && (y <=? 99) = false) as -> by lia.
  by apply TimeClip_representable.
Qed.

Lemma Day_midnight y m dt : Day (midnight y m dt) = MakeDay y m dt.
Proof. unfold midnight. apply Day_MakeDate. unfold msPerDay. lia. Qed.

Lemma getDay_first y m :
  ¬ (0 ≤ y ≤ 99) → 0 ≤ m ≤ 11 → representable (midnight y m 1) →
  keepsDay (midnight y m 1) →
  getDay (Date_new (Some y) (Some m) (Some 1)) = Some (Gregorian.weekday y m 1).
Proof.
  intros Hy Hm Hr Hk. rewrite Date_new_full_year by done.
  unfold getDay. cbn [fmap option_fmap option_map]. unfold WeekDay.
  unfold keepsDay in Hk. rewrite Hk, Day_midnight.
  by rewrite weekday_of_MakeDay.
Qed.

Lemma getDate_last y m :
  ¬ (0 ≤ y ≤ 99) → 0 ≤ m ≤ 11 →
  representable (midnight y m (Gregorian.daysInMonth y m)) →
  keepsDay (midnight y m (Gregorian.daysInMonth y m)) →
  getDate (Date_new (Some y) (num_add (Some m) 1) (Some 0))
  = Some (Gregorian.daysInMonth y m).
Proof.
  intros Hy Hm Hr Hk. pose proof (daysInMonth_range y m).
  assert (Hmid : midnight y (m + 1) 0 = midnight y m (Gregorian.daysInMonth y m)).
  { unfold midnight. by rewrite MakeDay_last. }
  change (num_add (Some m) 1) with (Some (m + 1)).
  rewrite Date_new_full_year by (done || by rewrite Hmid).
  unfold getDate. cbn [fmap option_fmap option_map]. rewrite Hmid. f_equal.
  eapply (fields_of_kept_day y m); [done | lia | apply Day_midnight | done].
Qed.

End DateObjects.

Lemma tz_IST_fixedOffset : @fixedOffset tz_IST.
Proof. intros t t' isUTC isUTC'. reflexivity. Qed.

(** ** The date string of a day *)

(** A number from 0 to 99 padded to two places is its two digits. *)
Lemma pad2_digits d :
  0 ≤ d ≤ 99 →
  padStart 2 (js "0") (ToString (Some d))
  = [Z.to_N (48 + d / 10); Z.to_N (48 + d mod 10)].
Proof.
  intros Hd.
  assert (Hall : forallb (λ d, bool_decide
                   (padStart 2 (js "0") (ToString (Some d))
                    = [Z.to_N (48 + d / 10); Z.to_N (48 + d mod 10)]))
                   (seqZ 0 100) = true) by by vm_compute.
  rewrite forallb_forall in Hall. eapply bool_decide_eq_true_1, Hall.
  apply list_elem_of_In, elem_of_seqZ. lia.
Qed.

(** A year of four digits is written with its four digits. *)
Lemma year4_digits y :
  1000 ≤ y ≤ 9999 →
  ToString (Some y)
  = [Z.to_N (48 + y / 1000); Z.to_N (48 + y / 100 mod 10);
     Z.to_N (48 + y / 10 mod 10); Z.to_N (48 + y mod 10)].
Proof.
  intros Hy.
  assert (Hall : forallb (λ y, bool_decide
                   (ToString (Some y)
                    = [Z.to_N (48 + y / 1000); Z.to_N (48 + y / 100 mod 10);
                       Z.to_N (48 + y / 10 mod 10); Z.to_N (48 + y mod 10)]))
                   (seqZ 1000 9000) = true) by by vm_compute.
  rewrite forallb_forall in Hall. eapply bool_decide_eq_true_1, Hall.
  apply list_elem_of_In, elem_of_seqZ. lia.
Qed.

(** For a year of four digits the date string of a day is its ISO 8601
    date: ten code units, YYYY-MM-DD. *)
Lemma isoDate_four_digits y m d :
  1000 ≤ y ≤ 9999 →
  Gregorian.isoDate y m d
  = [Z.to_N (48 + y / 1000); Z.to_N (48 + y / 100 mod 10);
     Z.to_N (48 + y / 10 mod 10); Z.to_N (48 + y mod 10); 45%N;
     Z.to_N (48 + (m + 1) / 10); Z.to_N (48 + (m + 1) mod 10); 45%N;
     Z.to_N (48 + d / 10); Z.to_N (48 + d mod 10)].
Proof.
  intros Hy. unfold Gregorian.isoDate, Gregorian.twoDigits.
  change (Gregorian.numeral y) with (ToString (Some y)).
  by rewrite year4_digits.
Qed.

(** The template literal of the source writes the date string of the day. *)
Lemma dateStr_isoDate y m d :
  0 ≤ m ≤ 11 → 0 ≤ d ≤ 99 →
  dateStr (Some y) (Some m) (Some d) = Gregorian.isoDate y m d.
Proof.
  intros Hm Hd. unfold dateStr, Gregorian.isoDate, Gregorian.twoDigits.
  change (num_add (Some m) 1) with (Some (m + 1)).
  by rewrite !pad2_digits by lia.
Qed.

(** ** The calendar grid *)

Section CalendarGrid.
Context `{TimeZone}.

(** C1, as amended.  For every year other than 0..99 and every month
    (0 = January) whose first and last day are dates a Date object can hold,
    in a time zone that skips the local midnight of neither of the two
    days: the grid of the Calendar is the grid of that month, as many
    leading blanks as the weekday index of the 1st (Sunday = 0), then one
    day cell for each day 1..daysInMonth, carrying the day number and the
    record stored under the date string of that day (or none). *)
Theorem calendarGrid_is_gridOfMonth (y m : Z) (attendance : AttendanceData) :
  ¬ (0 ≤ y ≤ 99) → 0 ≤ m ≤ 11 →
  representable (midnight y m 1) →
  representable (midnight y m (Gregorian.daysInMonth y m)) →
  keepsDay (midnight y m 1) →
  keepsDay (midnight y m (Gregorian.daysInMonth y m)) →
  calendarGrid (Some y) (Some m) attendance = gridOfMonth y m attendance.
Proof.
  intros Hy Hm Hfirst Hlast Hk1 Hk2. unfold calendarGrid, gridOfMonth.
  rewrite getDay_first, getDate_last by done. unfold for_lt, for_le.
  rewrite Z.sub_0_r, Z.sub_add. f_equal.
  apply Forall_fmap_ext_1, Forall_forall. intros d Hd%elem_of_seqZ.
  pose proof (daysInMonth_range y m). cbn.
  by rewrite dateStr_isoDate by lia.
Qed.

(** The two dates are in range from the year -271820 to the year 275759,
    and a zone of one offset skips nothing. *)
Lemma calendarGrid_year_window (y m : Z) (attendance : AttendanceData) :
  -271820 ≤ y ≤ 275759 → ¬ (0 ≤ y ≤ 99) → 0 ≤ m ≤ 11 →
  keepsDay (midnight y m 1) →
  keepsDay (midnight y m (Gregorian.daysInMonth y m)) →
  calendarGrid (Some y) (Some m) attendance = gridOfMonth y m attendance.
Proof.
  intros Hw Hy Hm Hk1 Hk2. pose proof (daysInMonth_range y m).
  unfold calendarGrid, gridOfMonth.
  rewrite getDay_first, getDate_last
    by (done || apply year_window_representable; lia).
  unfold for_lt, for_le. rewrite Z.sub_0_r, Z.sub_add. f_equal.
  apply Forall_fmap_ext_1, Forall_forall. intros d Hd%elem_of_seqZ. cbn.
  by rewrite dateStr_isoDate by lia.
Qed.

Lemma calendarGrid_fixedOffset (y m : Z) (attendance : AttendanceData) :
  fixedOffset → -271820 ≤ y ≤ 275759 → ¬ (0 ≤ y ≤ 99) → 0 ≤ m ≤ 11 →
  calendarGrid (Some y) (Some m) attendance = gridOfMonth y m attendance.
Proof.
  intros Hfix Hw Hy Hm.
  apply calendarGrid_year_window; (done || by apply fixedOffset_keepsDay).
Qed.

End CalendarGrid.

Section CalendarGridExamples.
Local Existing Instance tz_IST.

Lemma calendarGrid_is_gridOfMonth_witness :
  calendarGrid (Some 2024) (Some 2) march_2024 = gridOfMonth 2024 2 march_2024.
Proof.
  apply calendarGrid_is_gridOfMonth;
    [lia | lia | by vm_compute | by vm_compute
     | vm_compute; reflexivity | vm_compute; reflexivity].
Defined.

(** March 2024 starts on a Friday: five blanks, then 31 days. *)
Example calendarGrid_march_2024 :
  length (calendarGrid (Some 2024) (Some 2) march_2024) = (5 + 31)%nat
  ∧ calendarGrid (Some 2024) (Some 2) march_2024 !! 9%nat
    = Some (day (js "2024-03-05") 5 (Some sick))
  ∧ gridOfMonth 2024 2 march_2024 !! 9%nat
    = Some (day (js "2024-03-05") 5 (Some sick)).
Proof. by vm_compute. Qed.

(** C1, as stated, fails at the end of the range of Date.  The latest time
    value is on September 13, 275760: the 1st of that month is a date, a
    Monday, and its last day is not, so the Calendar shows one blank and no
    day cell, where the month has 30 days. *)
Lemma calendarGrid_last_month :
  getFullYear (Some maxTime) = Some 275760 ∧ getMonth (Some maxTime) = Some 8
  ∧ calendarGrid (Some 275760) (Some 8) ∅ = [blank (js "blank-0")]
  ∧ Gregorian.weekday 275760 8 1 = 1 ∧ Gregorian.daysInMonth 275760 8 = 30
  ∧ calendarGrid (Some 275760) (Some 8) ∅ ≠ gridOfMonth 275760 8 ∅.
Proof.
  split_and!; [by vm_compute .. |].
  intros E. apply (f_equal length) in E. vm_compute in E. discriminate.
Qed.

(** A year from 0 to 99 is read by [new Date] as 1900+year.  For February of
    year 0 (a leap year, it starts on a Tuesday) the Calendar computes the
    days of February 1900: four blanks and 28 days instead of two blanks and
    29 days. *)
Example calendarGrid_february_year_0 :
  length (calendarGrid (Some 0) (Some 1) ∅) = (4 + 28)%nat
  ∧ length (gridOfMonth 0 1 ∅) = (2 + 29)%nat.
Proof. by vm_compute. Qed.

(** The years of one to three digits are written without leading zeros. *)
Example isoDate_year_512 : Gregorian.isoDate 512 2 5 = js "512-03-05".
Proof. by vm_compute. Qed.

End CalendarGridExamples.

Section CalendarGridKiritimati.
Local Existing Instance tz_Kiritimati.

(** In a zone that skips the last day of the month the count of the days is
    wrong: on a host in Pacific/Kiritimati, December 1994 (it starts on a
    Thursday) gets its four blanks and one day cell, since
    [new Date(1994, 12, 0)] is January 1, 1995 there. *)
Example calendarGrid_december_1994_Kiritimati :
  getDate (Date_new (Some 1994) (Some 12) (Some 0)) = Some 1
  ∧ calendarGrid (Some 1994) (Some 11) ∅
    = [blank (js "blank-0"); blank (js "blank-1"); blank (js "blank-2");
       blank (js "blank-3"); day (js "1994-12-01") 1 None]
  ∧ ¬ keepsDay (midnight 1994 11 31).
Proof. split_and!; [by vm_compute | by vm_compute |]. vm_compute. discriminate. Qed.

End CalendarGridKiritimati.

(** ** Month navigation *)

Section MonthNavigation.
Context `{TimeZone}.

Lemma setMonth_Some t k dt :
  setMonth (Some t) (Some k) (Some dt)
  = TimeClip (UTC (MakeDate (MakeDay (YearFromTime (LocalTime t)) k dt)
                            (TimeWithinDay (LocalTime t)))).
Proof. reflexivity. Qed.

(** [setMonth(k, 1)], when its result is a date, is the first day of the
    month that [MakeDay] normalises [k] to, if the zone keeps that day. *)
Lemma setMonth_first_fields t k u y' m' :
  MakeDay (YearFromTime (LocalTime t)) k 1 = MakeDay y' m' 1 → 0 ≤ m' ≤ 11 →
  dayKept (MakeDay y' m' 1) →
  setMonth (Some t) (Some k) (Some 1) = Some u →
  YearFromTime (LocalTime u) = y' ∧ MonthFromTime (LocalTime u) = m'
  ∧ DateFromTime (LocalTime u) = 1.
Proof.
  intros Hday Hm' Hkept Hset. rewrite setMonth_Some in Hset.
  apply TimeClip_Some in Hset as [-> _].
  pose proof (daysInMonth_range y' m').
  apply (fields_of_kept_day y' m' 1); [done | lia | |].
  - rewrite Day_MakeDate by apply TimeWithinDay_range. exact Hday.
  - rewrite Hday. apply Hkept, TimeWithinDay_range.
Qed.

(** [changeMonth] on a valid date. *)
Lemma changeMonth_currentDate delta st t :
  currentDate st = Some t →
  currentDate (changeMonth delta st)
  = setMonth (Some t) (Some (MonthFromTime (LocalTime t) + delta)) (Some 1).
Proof. intros Ht. unfold changeMonth, setCurrentDate. cbn [currentDate]. by rewrite Ht. Qed.

Lemma viewedMonth_valid st t :
  currentDate st = Some t →
  viewedMonth st = Some (YearFromTime (LocalTime t), MonthFromTime (LocalTime t)).
Proof. intros Ht. unfold viewedMonth. by rewrite Ht. Qed.

Lemma prevMonth_nextMonth y m :
  0 ≤ m ≤ 11 → Gregorian.prevMonth (Gregorian.nextMonth (y, m)) = (y, m).
Proof.
  intros Hm. unfold Gregorian.prevMonth, Gregorian.nextMonth. simpl.
  destruct (m =? 11) eqn:E; simpl.
  - f_equal; lia.
  - destruct (m + 1 =? 0) eqn:E'; [lia |]. f_equal. lia.
Qed.

Lemma nextMonth_range y m :
  0 ≤ m ≤ 11 → 0 ≤ (Gregorian.nextMonth (y, m)).2 ≤ 11.
Proof.
  intros Hm. unfold Gregorian.nextMonth. simpl.
  destruct (m =? 11) eqn:E; simpl; lia.
Qed.

Lemma viewedMonth_Some st y m :
  viewedMonth st = Some (y, m) →
  ∃ t, currentDate st = Some t ∧ YearFromTime (LocalTime t) = y
       ∧ MonthFromTime (LocalTime t) = m.
Proof.
  unfold viewedMonth, getFullYear, getMonth.
  destruct (currentDate st) as [t |]; [| done]. simpl. intros [= <- <-]. eauto.
Qed.


(** The same in the zones of one offset, which skip nothing. *)
Lemma changeMonth_forward_back_fixedOffset st y m :
  fixedOffset →
  viewedMonth st = Some (y, m) →
  is_Some (currentDate (changeMonth 1 st)) →
  is_Some (currentDate (changeMonth (-1) (changeMonth 1 st))) →
  getDate (currentDate (changeMonth 1 st)) = Some 1
  ∧ viewedMonth (changeMonth 1 st) = Some (Gregorian.nextMonth (y, m))
  ∧ viewedMonth (changeMonth (-1) (changeMonth 1 st)) = Some (y, m).
Proof.
  intros Hfix Hview [u Hu] [v Hv].
  apply viewedMonth_Some in Hview as (t & Ht & Hy & Hm).
  pose proof (MonthFromTime_range (LocalTime t)) as Hr. rewrite Hm in Hr.
  pose proof (nextMonth_range y m Hr) as Hr'.
  rewrite (viewedMonth_valid (changeMonth (-1) (changeMonth 1 st)) v Hv).
  rewrite (viewedMonth_valid (changeMonth 1 st) u Hu), Hu.
  rewrite (changeMonth_currentDate (-1) _ u Hu) in Hv.
  rewrite (changeMonth_currentDate 1 st t Ht), Hm in Hu.
  destruct (setMonth_first_fields t (m + 1) u
              (Gregorian.nextMonth (y, m)).1 (Gregorian.nextMonth (y, m)).2)
    as (Hy1 & Hm1 & Hd1);
    [by rewrite Hy, MakeDay_next | done | by apply fixedOffset_dayKept | done |].
  rewrite Hm1 in Hv.
  destruct (setMonth_first_fields u ((Gregorian.nextMonth (y, m)).2 + -1) v y m)
    as (Hy2 & Hm2 & _); [| done | by apply fixedOffset_dayKept | done |].
  { rewrite Hy1, MakeDay_prev by done.
    by rewrite <- surjective_pairing, prevMonth_nextMonth. }
  unfold getDate. cbn [fmap option_fmap option_map].
  rewrite Hy1, Hm1, Hd1, Hy2, Hm2.
  by rewrite <- surjective_pairing.
Qed.

(** In any time zone the dates of the theorem are valid from a starting year
    between -271819 and 275758. *)
Lemma changeMonth_valid_in_window delta st y m :
  viewedMonth st = Some (y, m) → -271819 ≤ y ≤ 275758 → -1 ≤ delta ≤ 1 →
  is_Some (currentDate (changeMonth delta st)).
Proof.
  intros Hview Hy Hdelta.
  apply viewedMonth_Some in Hview as (t & Ht & Hyt & Hm).
  pose proof (MonthFromTime_range (LocalTime t)) as Hr. rewrite Hm in Hr.
  rewrite (changeMonth_currentDate delta st t Ht), setMonth_Some, Hyt, Hm.
  assert (∃ y' m', MakeDay y (m + delta) 1 = MakeDay y' m' 1
                   ∧ -271820 ≤ y' ≤ 275759 ∧ 0 ≤ m' ≤ 11)
    as (y' & m' & -> & Hy' & Hm').
  { destruct (decide (delta = 1)) as [-> |]; [| destruct (decide (delta = -1)) as [-> |]].
    - rewrite MakeDay_next by done. eexists _, _. split; [done |].
      split; [| by apply nextMonth_range].
      unfold Gregorian.nextMonth. simpl. destruct (m =? 11); simpl; lia.
    - rewrite MakeDay_prev by done. eexists _, _. split; [done |].
      unfold Gregorian.prevMonth. simpl. destruct (m =? 0) eqn:E; simpl; lia.
    - assert (delta = 0) as -> by lia. rewrite Z.add_0_r.
      exists y, m. split; [done | lia]. }
  pose proof (daysInMonth_range y' m').
  rewrite TimeClip_representable; [done |].
  apply year_window_time; [done | done | lia | apply TimeWithinDay_range].
Qed.

End MonthNavigation.

Section MonthNavigationExamples.
Local Existing Instance tz_IST.



End MonthNavigationExamples.

Section MonthNavigationAsuncion.
Local Existing Instance tz_Asuncion.

(** On a host in America/Asuncion, from September 1, 2017 at 00:30 local
    time (04:30 UTC): the 1st of October has no 00:30, and [changeMonth(+1)]
    gives 01:30 of that day.  It is still the 1st of the next month, and
    [changeMonth(-1)] returns to September, at 01:30. *)
Example changeMonth_over_a_gap :
  let st := dashboard_on (Some 1504240200000) ∅ None in
  viewedMonth st = Some (2017, 8)
  ∧ currentDate (changeMonth 1 st) = Some 1506832200000
  ∧ ¬ roundTrips (MakeDate (MakeDay 2017 9 1) (30 * msPerMinute))
  ∧ viewedMonth (changeMonth 1 st) = Some (2017, 9)
  ∧ getDate (currentDate (changeMonth 1 st)) = Some 1
  ∧ viewedMonth (changeMonth (-1) (changeMonth 1 st)) = Some (2017, 8)
  ∧ currentDate (changeMonth (-1) (changeMonth 1 st)) = Some 1504243800000.
Proof. split_and!; by vm_compute. Qed.

Lemma tz_Asuncion_dayKept dn : dayKept dn.
Proof.
  intros time Htime. unfold keepsDay, LocalTime, UTC. cbn [LocalTZA tz_Asuncion].
  set (switch := MakeDate (MakeDay 2017 9 1) (4 * msPerHour)).
  assert (Hs : switch = 17440 * msPerDay + 4 * msPerHour) by by vm_compute.
  unfold transitionTZA. rewrite Hs. unfold MakeDate, Day, msPerDay, msPerHour in *.
  repeat case_if; Z.div_mod_to_equations; lia.
Qed.

End MonthNavigationAsuncion.

(** ** Fetching the attendance of a month *)

Lemma foldl_insert_lookup (rows : list CalendarDayData) (acc : AttendanceData) k :
  is_Some (foldl (λ acc r, <[date r := record_of r]> acc) acc rows !! k)
  ↔ is_Some (acc !! k) ∨ ∃ r, r ∈ rows ∧ date r = k.
Proof.
  revert acc. induction rows as [| r rows IH]; intros acc; simpl.
  - split; [by left | intros [? | (r & Hr & _)]; [done | by apply elem_of_nil in Hr]].
  - rewrite IH. split.
    + intros [Hk | (r' & Hr' & Hd)].
      * destruct (decide (date r = k)) as [<- | Hne].
        -- right. exists r. split; [apply list_elem_of_here | done].
        -- left. by rewrite lookup_insert_ne in Hk.
      * right. exists r'. split; [by apply list_elem_of_further | done].
    + intros [Hk | (r' & Hr' & Hd)].
      * left. destruct (decide (date r = k)) as [<- | Hne].
        -- rewrite lookup_insert_eq. eauto.
        -- by rewrite lookup_insert_ne.
      * apply elem_of_cons in Hr' as [-> | Hr'].
        -- left. rewrite <- Hd, lookup_insert_eq. eauto.
        -- right. eauto.
Qed.

(** The mapping built from a response has exactly the dates of its rows. *)
Lemma newAttendanceData_dates rows k :
  is_Some (newAttendanceData rows !! k) ↔ ∃ r, r ∈ rows ∧ date r = k.
Proof.
  unfold newAttendanceData. rewrite foldl_insert_lookup, lookup_empty.
  split; [intros [[? [=]] | ?]; done | by right].
Qed.

(** A later row of the response replaces an earlier one of the same date. *)
Lemma newAttendanceData_snoc rows r :
  newAttendanceData (rows ++ [r]) = <[date r := record_of r]> (newAttendanceData rows).
Proof. unfold newAttendanceData. by rewrite foldl_app. Qed.

Lemma gateway_select_rows date_le table sid gte lte rows r :
  data (gateway_select date_le table sid gte lte) = Some rows →
  r ∈ rows ↔ r ∈ table ∧ student_id r = sid
             ∧ date_le gte (date r) = true ∧ date_le (date r) lte = true.
Proof.
  unfold gateway_select. simpl. intros [= <-].
  rewrite list_elem_of_In, filter_In, <- list_elem_of_In.
  rewrite !andb_true_iff, bool_decide_eq_true. tauto.
Qed.

Section Fetch.
Context `{TimeZone}.




(** The outcome of a fetch that the client answers with rows. *)
Lemma fetchAttendanceForMonth_rows client sid cd st rows :
  sid ≠ [] →
  on_attendance_select client sid (firstDay (getFullYear cd) (getMonth cd))
                       (lastDayOfMonth (getFullYear cd) (getMonth cd))
  = {| data := Some rows; error := None |} →
  fetchAttendanceForMonth (Some client) sid cd st
  = (setIsLoadingAttendance false
       (setAttendance (λ _, newAttendanceData rows) (setIsLoadingAttendance true st)),
     [Sent (attendance_select sid (firstDay (getFullYear cd) (getMonth cd))
                              (lastDayOfMonth (getFullYear cd) (getMonth cd)))]).
Proof.
  intros Hsid Hreply. unfold fetchAttendanceForMonth.
  destruct sid as [| c sid]; [done |]. cbn [truthy_string].
  by rewrite Hreply.
Qed.

(** The outcome of a fetch that the client answers with an error. *)
Lemma fetchAttendanceForMonth_error client sid cd st e :
  sid ≠ [] →
  error (on_attendance_select client sid (firstDay (getFullYear cd) (getMonth cd))
                              (lastDayOfMonth (getFullYear cd) (getMonth cd)))
  = Some e →
  fetchAttendanceForMonth (Some client) sid cd st
  = (setIsLoadingAttendance false (setIsLoadingAttendance true st),
     [Sent (attendance_select sid (firstDay (getFullYear cd) (getMonth cd))
                              (lastDayOfMonth (getFullYear cd) (getMonth cd)));
      ConsoleError (js "Error fetching attendance:")]).
Proof.
  intros Hsid Hreply. unfold fetchAttendanceForMonth.
  destruct sid as [| c sid]; [done |]. cbn [truthy_string].
  by rewrite Hreply.
Qed.

(** Whatever the date on view is, when the gateway answers from its table
    the new mapping has an entry for a date string iff the table has a row
    of the student with that date between the two bounds of the request,
    and nothing of the previous mapping is kept. *)
Lemma fetch_maps_response (date_le : jsstring → jsstring → bool)
    (table : list CalendarDayData) client sid (cd : Date) st st0 :
  sid ≠ [] →
  on_attendance_select client = gateway_select date_le table →
  let gte := firstDay (getFullYear cd) (getMonth cd) in
  let lte := lastDayOfMonth (getFullYear cd) (getMonth cd) in
  let fetched := (fetchAttendanceForMonth (Some client) sid cd st).1 in
  (∀ k, is_Some (attendance fetched !! k)
        ↔ ∃ r, r ∈ table ∧ student_id r = sid ∧ date r = k
               ∧ date_le gte (date r) = true ∧ date_le (date r) lte = true)
  ∧ attendance fetched
    = attendance (fetchAttendanceForMonth (Some client) sid cd st0).1.
Proof.
  intros Hsid Hclient gte lte fetched. subst fetched.
  pose (rows := List.filter
                  (λ r, bool_decide (student_id r = sid)
                        && date_le gte (date r) && date_le (date r) lte) table).
  assert (Hreply : on_attendance_select client sid gte lte
                   = {| data := Some rows; error := None |}) by by rewrite Hclient.
  assert (Hrows : ∀ r, r ∈ rows ↔ r ∈ table ∧ student_id r = sid
                          ∧ date_le gte (date r) = true ∧ date_le (date r) lte = true).
  { intros r. by apply (gateway_select_rows date_le table sid gte lte). }
  rewrite !(fetchAttendanceForMonth_rows client sid cd _ rows Hsid Hreply).
  cbn [fst attendance setAttendance setIsLoadingAttendance].
  split; [| done].
  intros k. rewrite newAttendanceData_dates. split.
  - intros (r & Hr & Hd). apply Hrows in Hr as (? & ? & ? & ?). eauto 10.
  - intros (r & Hr & Hs & Hd & Hlo & Hhi). exists r. split; [| done].
    apply Hrows. done.
Qed.


End Fetch.

Section FetchExamples.
Local Existing Instance tz_IST.


(** The fetch of March 2024 for "asha" asks for 2024-03-01..2024-03-31 and
    keeps her one row of March. *)
Example fetch_march_2024 :
  let cd := Date_new (Some 2024) (Some 2) (Some 17) in
  fetchAttendanceForMonth (Some client_table) (js "asha") cd
                          (dashboard_on cd ∅ None)
  = (dashboard_on cd march_2024 None,
     [Sent (attendance_select (js "asha") (js "2024-03-01") (js "2024-03-31"))]).
Proof. by vm_compute. Qed.

(** At the end of the range of Date the last day of the month is not a
    date, and the upper bound of the request is not a date string; for
    February of year 0, read as February 1900, it is the 28th of a month of
    29 days. *)
Example fetch_bounds_out_of_window :
  lastDayOfMonth (Some 275760) (Some 8) = js "275760-09-NaN"
  ∧ lastDayOfMonth (Some 0) (Some 1) = js "0-02-28"
  ∧ Gregorian.daysInMonth 0 1 = 29.
Proof. by vm_compute. Qed.

End FetchExamples.

Section FetchKiritimati.
Local Existing Instance tz_Kiritimati.


End FetchKiritimati.

(** ** Saving an edit *)

Section Save.
Context `{TimeZone}.

Lemma truthy_day_selected st d :
  selectedDay st = Some d → d ≠ 0 → truthy_day (selectedDay st) = true.
Proof. intros -> ?. unfold truthy_day. apply negb_true_iff. lia. Qed.

(** C4.  For every edit commit (a day is selected, a record is given, the
    client is present), if the upsert fails, the mapping is left as it was,
    and the modal still closes: the open flag and the selected day are
    cleared, as they are when the upsert succeeds. *)
Theorem save_failure_keeps_mapping client record st d e :
  selectedDay st = Some d → d ≠ 0 →
  error (on_attendance_upsert client (upsertRow record st)) = Some e →
  let st' := (handleSaveAttendance (Some client) record st).1 in
  attendance st' = attendance st
  ∧ isModalOpen st' = false ∧ selectedDay st' = None
  ∧ st' = setSelectedDay None (setIsModalOpen false st)
  ∧ (∀ client2,
       error (on_attendance_upsert client2 (upsertRow record st)) = None →
       let st2 := (handleSaveAttendance (Some client2) record st).1 in
       isModalOpen st2 = isModalOpen st' ∧ selectedDay st2 = selectedDay st').
Proof.
  intros Hd Hd0 Herr. unfold handleSaveAttendance.
  rewrite (truthy_day_selected st d Hd Hd0), Herr. split_and!; try done.
  intros client2 Hok. by rewrite Hok.
Qed.

(** The date string of the selected day, for a day 1..31 of the month on
    view. *)
Lemma selectedDateStr_isoDate st y m d :
  viewedMonth st = Some (y, m) → selectedDay st = Some d → 1 ≤ d ≤ 31 →
  selectedDateStr st = Gregorian.isoDate y m d.
Proof.
  intros Hview Hd Hr. apply viewedMonth_Some in Hview as (t & Ht & Hy & Hm).
  pose proof (MonthFromTime_range (LocalTime t)) as Hm'. rewrite Hm in Hm'.
  unfold selectedDateStr, getFullYear, getMonth.
  rewrite Ht, Hd. cbn [fmap option_fmap option_map]. rewrite Hy, Hm.
  by apply dateStr_isoDate; lia.
Qed.

(** C5.  For every edit commit that succeeds (a day 1..31 of the month on
    view is selected, the upsert is answered without an error), the date
    string of the selected day, year-month-day with the month counted from
    1 and two digits for month and day, is mapped to the new record,
    whatever it was mapped to before, and every other date is mapped as
    before; the only request is the upsert of that date for the selected
    student, and neither the student nor the month on view changes, so the
    attendance is not fetched again. *)
Theorem save_success_merges_one_date client record st (y m d : Z) :
  viewedMonth st = Some (y, m) → selectedDay st = Some d → 1 ≤ d ≤ 31 →
  error (on_attendance_upsert client (upsertRow record st)) = None →
  let key := Gregorian.isoDate y m d in
  let st' := (handleSaveAttendance (Some client) record st).1 in
  attendance st' = <[key := record]> (attendance st)
  ∧ attendance st' !! key = Some record
  ∧ (∀ k, k ≠ key → attendance st' !! k = attendance st !! k)
  ∧ (handleSaveAttendance (Some client) record st).2
    = [Sent (attendance_upsert {| student_id := selectedStudentId st;
                                  date := key; record_of := record |})]
  ∧ currentDate st' = currentDate st
  ∧ selectedStudentId st' = selectedStudentId st.
Proof.
  intros Hview Hd Hr Herr key. unfold handleSaveAttendance.
  rewrite (truthy_day_selected st d Hd) by lia. rewrite Herr.
  unfold upsertRow. rewrite (selectedDateStr_isoDate st y m d Hview Hd Hr).
  cbn [fst snd attendance setAttendance setSelectedDay setIsModalOpen
       currentDate selectedStudentId].
  split_and!; try done.
  - apply lookup_insert_eq.
  - intros k Hk. by apply lookup_insert_ne.
Qed.

(** C10.  If no day is selected, or the client is absent, saving does
    nothing: no request, no log, and the whole state (the mapping, the open
    flag of the modal, the selected day) is as before. *)
Theorem save_without_day_is_noop supabase record st :
  selectedDay st = None ∨ supabase = None →
  handleSaveAttendance supabase record st = (st, []).
Proof.
  intros [Hd | ->]; unfold handleSaveAttendance; [| done].
  rewrite Hd. by destruct supabase.
Qed.

(** The same when the selected day is the number 0, which is falsy. *)
Lemma save_day_0_is_noop supabase record st :
  selectedDay st = Some 0 → handleSaveAttendance supabase record st = (st, []).
Proof.
  intros Hd. unfold handleSaveAttendance. rewrite Hd. by destruct supabase.
Qed.

End Save.

Section SaveExamples.
Local Existing Instance tz_IST.

Lemma save_failure_keeps_mapping_witness :
  let st := dashboard_on (Date_new (Some 2024) (Some 2) (Some 1)) march_2024 (Some 6) in
  let st' := (handleSaveAttendance (Some client_down) makeup st).1 in
  attendance st' = attendance st
  ∧ isModalOpen st' = false ∧ selectedDay st' = None
  ∧ st' = setSelectedDay None (setIsModalOpen false st)
  ∧ (∀ client2,
       error (on_attendance_upsert client2 (upsertRow makeup st)) = None →
       let st2 := (handleSaveAttendance (Some client2) makeup st).1 in
       isModalOpen st2 = isModalOpen st' ∧ selectedDay st2 = selectedDay st').
Proof.
  apply (save_failure_keeps_mapping client_down makeup
           (dashboard_on (Date_new (Some 2024) (Some 2) (Some 1)) march_2024 (Some 6))
           6 (js "Failed to fetch")); [reflexivity | lia | reflexivity].
Defined.

Lemma save_success_merges_one_date_witness :
  let st := dashboard_on (Date_new (Some 2024) (Some 2) (Some 1)) march_2024 (Some 6) in
  let key := Gregorian.isoDate 2024 2 6 in
  let st' := (handleSaveAttendance (Some (client_ok [])) makeup st).1 in
  attendance st' = <[key := makeup]> (attendance st)
  ∧ attendance st' !! key = Some makeup
  ∧ (∀ k, k ≠ key → attendance st' !! k = attendance st !! k)
  ∧ (handleSaveAttendance (Some (client_ok [])) makeup st).2
    = [Sent (attendance_upsert {| student_id := js "asha"; date := key;
                                  record_of := makeup |})]
  ∧ currentDate st' = currentDate st
  ∧ selectedStudentId st' = selectedStudentId st.
Proof.
  apply (save_success_merges_one_date (client_ok []) makeup
           (dashboard_on (Date_new (Some 2024) (Some 2) (Some 1)) march_2024 (Some 6))
           2024 2 6); [vm_compute; reflexivity | reflexivity | lia | reflexivity].
Defined.

Lemma save_without_day_is_noop_witness :
  let st := dashboard_on (Date_new (Some 2024) (Some 2) (Some 1)) march_2024 None in
  handleSaveAttendance (Some (client_ok [])) makeup st = (st, []).
Proof.
  apply (save_without_day_is_noop (Some (client_ok [])) makeup
           (dashboard_on (Date_new (Some 2024) (Some 2) (Some 1)) march_2024 None)).
  left. reflexivity.
Defined.

(** The end-to-end scenario of the specification: March 5 is stored as
    absent/"sick"; saving present/"makeup class" for March 6 leaves both in
    the mapping, and the grid shows both. *)
Example save_march_6 :
  let st := dashboard_on (Date_new (Some 2024) (Some 2) (Some 1)) march_2024 (Some 6) in
  let st' := (handleSaveAttendance (Some (client_ok [])) makeup st).1 in
  Gregorian.isoDate 2024 2 6 = js "2024-03-06"
  ∧ attendance st' = <[js "2024-03-06" := makeup]> march_2024
  ∧ calendarGrid (Some 2024) (Some 2) (attendance st') !! 9%nat
    = Some (day (js "2024-03-05") 5 (Some sick))
  ∧ calendarGrid (Some 2024) (Some 2) (attendance st') !! 10%nat
    = Some (day (js "2024-03-06") 6 (Some makeup)).
Proof. by vm_compute. Qed.

End SaveExamples.

(** ** The mapping and the month on view *)

Lemma inMonth_test y m k : inMonth y m k ↔ inMonthb y m k = true.
Proof.
  unfold inMonth, inMonthb. rewrite existsb_exists. split.
  - intros (d & Hd & ->). exists d. split; [| by apply bool_decide_eq_true].
    apply list_elem_of_In, elem_of_seqZ. lia.
  - intros (d & Hd & Hk). exists d.
    apply list_elem_of_In, elem_of_seqZ in Hd.
    apply bool_decide_eq_true in Hk. split; [lia | done].
Qed.

Lemma withinMonth_insert (y m : Z) (k : jsstring) (r : AttendanceRecord)
    (a : AttendanceData) :
  inMonth y m k → withinMonth y m a → withinMonth y m (<[k := r]> a).
Proof.
  intros Hk Ha k' Hk'. destruct (decide (k = k')) as [<- | Hne]; [done |].
  apply Ha. by rewrite lookup_insert_ne in Hk'.
Qed.

Lemma withinMonth_empty y m : withinMonth y m ∅.
Proof. intros k [r Hr]. by rewrite lookup_empty in Hr. Qed.

Lemma withinMonth_newAttendanceData y m rows :
  Forall (λ r, inMonth y m (date r)) rows → withinMonth y m (newAttendanceData rows).
Proof.
  intros Hrows k Hk. apply newAttendanceData_dates in Hk as (r & Hr & <-).
  by apply (proj1 (Forall_forall _ _) Hrows).
Qed.

Section MappingAndMonth.
Context `{TimeZone}.

Lemma selectedDateStr_inMonth st y m d :
  viewedMonth st = Some (y, m) → selectedDay st = Some d →
  1 ≤ d ≤ Gregorian.daysInMonth y m → inMonth y m (selectedDateStr st).
Proof.
  intros Hview Hd Hr. apply viewedMonth_Some in Hview as (t & Ht & Hy & Hm).
  exists d. split; [done |]. unfold selectedDateStr, getFullYear, getMonth.
  rewrite Ht, Hd. cbn [fmap option_fmap option_map]. by rewrite Hy, Hm.
Qed.

Lemma attendanceEffect_selected supabase st :
  selectedStudentId st ≠ [] →
  attendanceEffect supabase st
  = fetchAttendanceForMonth supabase (selectedStudentId st) (currentDate st) st.
Proof.
  intros Hsid. unfold attendanceEffect.
  by destruct (selectedStudentId st).
Qed.

(** C6, as amended.  What each write of the mapping does to it (the
    attendance effect is what follows a change of month or of student in
    [Dashboard_step]):
    - the attendance effect with a student selected sends one range request
      for that student; when the client answers with rows, the mapping
      becomes the mapping of those rows, with nothing of the previous one,
      and it lies within a month whenever the rows do;
    - when the client answers with an error, the previous mapping stays;
    - with no student selected the mapping becomes empty;
    - saving an edit of a day of the month on view keeps a mapping within
      that month within it. *)
Theorem attendance_writes :
  (∀ client st rows,
     selectedStudentId st ≠ [] →
     on_attendance_select client (selectedStudentId st)
         (firstDay (getFullYear (currentDate st)) (getMonth (currentDate st)))
         (lastDayOfMonth (getFullYear (currentDate st)) (getMonth (currentDate st)))
     = {| data := Some rows; error := None |} →
     attendance (attendanceEffect (Some client) st).1 = newAttendanceData rows
     ∧ (attendanceEffect (Some client) st).2
       = [Sent (attendance_select (selectedStudentId st)
                  (firstDay (getFullYear (currentDate st)) (getMonth (currentDate st)))
                  (lastDayOfMonth (getFullYear (currentDate st))
                                  (getMonth (currentDate st))))]
     ∧ ∀ y m, Forall (λ r, inMonth y m (date r)) rows →
              withinMonth y m (attendance (attendanceEffect (Some client) st).1))
  ∧ (∀ client st e,
       selectedStudentId st ≠ [] →
       error (on_attendance_select client (selectedStudentId st)
                (firstDay (getFullYear (currentDate st)) (getMonth (currentDate st)))
                (lastDayOfMonth (getFullYear (currentDate st))
                                (getMonth (currentDate st)))) = Some e →
       attendance (attendanceEffect (Some client) st).1 = attendance st)
  ∧ (∀ supabase st,
       selectedStudentId st = [] →
       attendance (attendanceEffect supabase st).1 = ∅)
  ∧ (∀ supabase record st y m d,
       viewedMonth st = Some (y, m) → selectedDay st = Some d →
       1 ≤ d ≤ Gregorian.daysInMonth y m →
       withinMonth y m (attendance st) →
       withinMonth y m (attendance (handleSaveAttendance supabase record st).1)).
Proof.
  split_and!.
  - intros client st rows Hsid Hreply.
    rewrite attendanceEffect_selected by done.
    rewrite (fetchAttendanceForMonth_rows client _ _ st rows Hsid Hreply).
    cbn [fst snd attendance setAttendance setIsLoadingAttendance].
    split_and!; [done | done |]. intros y m. apply withinMonth_newAttendanceData.
  - intros client st e Hsid Herr.
    rewrite attendanceEffect_selected by done.
    by rewrite (fetchAttendanceForMonth_error client _ _ st e Hsid Herr).
  - intros supabase st Hsid. unfold attendanceEffect. by rewrite Hsid.
  - intros supabase record st y m d Hview Hd Hr Hin.
    unfold handleSaveAttendance. destruct supabase as [client |]; [| done].
    destruct (truthy_day (selectedDay st)); [| done].
    destruct (error (on_attendance_upsert client (upsertRow record st))); [done |].
    cbn [fst attendance setAttendance setSelectedDay setIsModalOpen].
    apply withinMonth_insert; [| done]. by eapply selectedDateStr_inMonth.
Qed.

End MappingAndMonth.

Section MappingAndMonthExamples.
Local Existing Instance tz_IST.

Lemma march_2024_withinMonth : withinMonth 2024 2 march_2024.
Proof.
  intros k [r Hr]. unfold march_2024 in Hr.
  apply lookup_singleton_Some in Hr as [<- _].
  by apply inMonth_test.
Qed.

(** The successful fetch of March 2024. *)
Lemma attendance_writes_witness :
  let st := dashboard_on (Date_new (Some 2024) (Some 2) (Some 17)) ∅ None in
  attendance (attendanceEffect (Some client_table) st).1
  = newAttendanceData [ {| student_id := js "asha"; date := js "2024-03-05";
                           record_of := sick |} ]
  ∧ withinMonth 2024 2 (attendance (attendanceEffect (Some client_table) st).1).
Proof.
  pose (row := {| student_id := js "asha"; date := js "2024-03-05"; record_of := sick |}).
  destruct (proj1 attendance_writes client_table
              (dashboard_on (Date_new (Some 2024) (Some 2) (Some 17)) ∅ None)
              [row] ltac:(done) ltac:(reflexivity)) as (Hatt & _ & Hin).
  split; [exact Hatt |]. apply Hin. constructor; [| constructor].
  by apply inMonth_test.
Defined.

(** C6, as stated, fails: when the fetch that follows a change of month
    fails, the mapping of the previous month stays.  From March 2024 with an
    entry for March 5, the click on "next month" with a client that answers
    with an error shows April with the entry of March 5 still in the
    mapping. *)
Lemma stale_mapping_after_failed_fetch :
  let st := dashboard_on (Date_new (Some 2024) (Some 2) (Some 17)) march_2024 None in
  let st' := (Dashboard_step (Some client_down) (ClickMonth 1) st).1 in
  viewedMonth st = Some (2024, 2) ∧ withinMonth 2024 2 (attendance st)
  ∧ viewedMonth st' = Some (2024, 3)
  ∧ attendance st' = attendance st
  ∧ ¬ withinMonth 2024 3 (attendance st').
Proof.
  split_and!; [by vm_compute | apply march_2024_withinMonth | by vm_compute
              | by vm_compute |].
  intros Hin. specialize (Hin (js "2024-03-05")).
  rewrite inMonth_test in Hin. vm_compute in Hin.
  by specialize (Hin (ex_intro _ sick eq_refl)).
Qed.

End MappingAndMonthExamples.

(** ** Rendering the calendar *)

Section Rendering.
Context `{TimeZone}.

(** C7, as amended.  The view of the Calendar is a function of the year and
    month of [currentDate], the mapping, the two flags and the calendar day
    of the clock: two renders that agree on these give the same view. *)
Theorem Calendar_deterministic (now1 now2 cd1 cd2 : Date)
    (attendance : AttendanceData) (isTutor isLoading : bool) :
  toDateString now1 = toDateString now2 →
  getFullYear cd1 = getFullYear cd2 → getMonth cd1 = getMonth cd2 →
  Calendar now1 cd1 attendance isTutor isLoading
  = Calendar now2 cd2 attendance isTutor isLoading.
Proof.
  intros Hnow Hyear Hmonth. unfold Calendar.
  by rewrite Hnow, Hyear, Hmonth.
Qed.

End Rendering.

Section RenderingExamples.
Local Existing Instance tz_IST.

(** Two dates of March 2024, rendered at midnight and at noon of March 5. *)
Lemma Calendar_deterministic_witness :
  let midnight_5 := Date_new (Some 2024) (Some 2) (Some 5) in
  let noon_5 := (λ t, t + 12 * msPerHour) <$> midnight_5 in
  midnight_5 ≠ noon_5
  ∧ Calendar midnight_5 (Date_new (Some 2024) (Some 2) (Some 1)) march_2024 true false
    = Calendar noon_5 (Date_new (Some 2024) (Some 2) (Some 17)) march_2024 true false.
Proof.
  split; [by vm_compute |].
  apply Calendar_deterministic; by vm_compute.
Defined.

(** C7, as stated, fails: line 247 reads the clock.  The same props rendered
    on March 5 and on March 6 give two views: the cell of the day of the
    clock carries the "today" classes. *)
Lemma Calendar_reads_the_clock :
  let cd := Date_new (Some 2024) (Some 2) (Some 1) in
  Calendar (Date_new (Some 2024) (Some 2) (Some 5)) cd march_2024 true false
  ≠ Calendar (Date_new (Some 2024) (Some 2) (Some 6)) cd march_2024 true false.
Proof.
  intros cd E.
  apply (f_equal (λ v, cell_today <$> (cells v !! 9%nat ≫= λ c,
                         match c with day_cell d => Some d | _ => None end))) in E.
  vm_compute in E. discriminate.
Qed.

End RenderingExamples.

(** ** Tutor login *)

(** C8.  From the login screen (no session), submitting the tutor form
    establishes the tutor session iff the entered code is the secret
    literal; for every other code no session is established and the error
    message is set and shown. *)
Theorem tutor_login_iff_secret (ls : LoginScreen) :
  ((App_tutorLogin ls None).2 = Some tutor ↔ tutorCode ls = TUTOR_SECRET_CODE)
  ∧ (tutorCode ls ≠ TUTOR_SECRET_CODE →
     (App_tutorLogin ls None).2 = None
     ∧ login_error (App_tutorLogin ls None).1 = js "Invalid secret code."
     ∧ shownError (App_tutorLogin ls None).1 = Some (js "Invalid secret code.")).
Proof.
  unfold App_tutorLogin, handleTutorLogin.
  destruct (decide (tutorCode ls = TUTOR_SECRET_CODE)) as [Heq | Hne]; simpl.
  - split; [done | by intros []].
  - split; [split; [done | by intros ?] | done].
Qed.

(** The comparison is exact: case and surrounding blanks count. *)
Example tutor_login_exact :
  (App_tutorLogin {| tutorCode := js "Tutor2042!"; selectedStudent := [];
                     login_error := [] |} None).2 = Some tutor
  ∧ (App_tutorLogin {| tutorCode := js "tutor2042!"; selectedStudent := [];
                       login_error := [] |} None).2 = None
  ∧ (App_tutorLogin {| tutorCode := js "Tutor2042! "; selectedStudent := [];
                       login_error := [] |} None).2 = None
  ∧ (App_tutorLogin {| tutorCode := []; selectedStudent := [];
                       login_error := [] |} None).2 = None.
Proof. by vm_compute. Qed.

(** ** Adding a student *)

Lemma trimStart_nil s : trimStart s = [] ↔ Forall (λ c, isWhiteSpace c = true) s.
Proof.
  induction s as [| c s IH]; simpl; [done |].
  destruct (isWhiteSpace c) eqn:Ec.
  - rewrite IH. split; [by constructor | by inversion 1].
  - split; [done | inversion 1; congruence].
Qed.

Lemma trimStart_head s c s' : trimStart s = c :: s' → isWhiteSpace c = false.
Proof.
  induction s as [| x s IH]; simpl; [done |].
  destruct (isWhiteSpace x) eqn:Ex; [done |]. by intros [= <- _].
Qed.

(** A name is trimmed to nothing iff it is empty or all white space. *)
Lemma trim_nil s : trim s = [] ↔ Forall (λ c, isWhiteSpace c = true) s.
Proof.
  unfold trim, trimEnd. rewrite <- trimStart_nil. split.
  - intros Hrev. apply (f_equal reverse) in Hrev.
    rewrite reverse_involutive, reverse_nil in Hrev.
    apply trimStart_nil in Hrev. rewrite Forall_reverse in Hrev.
    destruct (trimStart s) as [| c s'] eqn:Es; [done |].
    apply trimStart_head in Es. apply Forall_cons in Hrev as [Hc _]. congruence.
  - by intros ->.
Qed.

(** C9, as amended.  A blank or all-white-space name is rejected locally:
    no request is sent, and the name field and the roster stay as they are.
    For every other name one insert request is sent, carrying the trimmed
    name and nothing else; when the insert succeeds the name field is
    emptied and the roster is fetched again, and when it fails the error is
    logged and the roster is not fetched. *)
Theorem addStudent_blank_or_insert (client : SupabaseClient) (newName : jsstring)
    (roster : Roster) :
  (Forall (λ c, isWhiteSpace c = true) newName →
   Dashboard_addStudent (Some client) newName roster = (newName, roster, []))
  ∧ (¬ Forall (λ c, isWhiteSpace c = true) newName →
     trim newName ≠ []
     ∧ match error (on_students_insert client (trim newName)) with
       | None =>
           Dashboard_addStudent (Some client) newName roster
           = ([], (fetchStudents (Some client) roster).1,
              Sent (students_insert (trim newName))
              :: (fetchStudents (Some client) roster).2)
           ∧ head (fetchStudents (Some client) roster).2 = Some (Sent students_select)
       | Some _ =>
           Dashboard_addStudent (Some client) newName roster
           = (newName, roster,
              [Sent (students_insert (trim newName));
               ConsoleError (js "Error adding student:")])
       end).
Proof.
  unfold Dashboard_addStudent, addStudent. split.
  - intros Hblank. apply trim_nil in Hblank. by rewrite Hblank.
  - intros Hname. rewrite <- trim_nil in Hname. split; [done |].
    destruct (trim newName) as [| c s] eqn:Et; [done |]. cbn [truthy_string].
    destruct (error (on_students_insert client (c :: s))); [done |].
    split.
    + by destruct (fetchStudents (Some client) roster).
    + unfold fetchStudents. by destruct (error (on_students_select client)).
Qed.

(** With no client nothing is sent either. *)
Lemma addStudent_without_client newName roster :
  Dashboard_addStudent None newName roster = (newName, roster, []).
Proof. reflexivity. Qed.

Lemma addStudent_blank_or_insert_witness :
  Dashboard_addStudent (Some (client_ok [])) (js "   ") roster_2
  = (js "   ", roster_2, [])
  ∧ Dashboard_addStudent (Some (client_ok [])) (js "  Meera ") roster_2
    = ([], {| students := []; isLoaded := true |},
       [Sent (students_insert (js "Meera")); Sent students_select]).
Proof.
  split.
  - apply (proj1 (addStudent_blank_or_insert (client_ok []) (js "   ") roster_2)).
    by vm_compute; repeat constructor.
  - pose proof (proj2 (addStudent_blank_or_insert (client_ok []) (js "  Meera ") roster_2))
      as Hins.
    destruct Hins as [_ Hins].
    + intros Hall. inversion Hall as [| ? ? _ Hrest]. inversion Hrest as [| ? ? _ Hrest'].
      inversion Hrest' as [| ? ? Hm _]. vm_compute in Hm. discriminate.
    + exact (proj1 Hins).
Defined.

(** C9, as stated, fails when the insert fails: the request is sent, the
    error is logged, and the roster is not fetched again. *)
Lemma addStudent_no_refetch_on_failure :
  trim (js "Asha") ≠ []
  ∧ Dashboard_addStudent (Some client_down) (js "Asha") roster_2
    = (js "Asha", roster_2,
       [Sent (students_insert (js "Asha")); ConsoleError (js "Error adding student:")])
  ∧ Sent students_select ∉ (Dashboard_addStudent (Some client_down) (js "Asha") roster_2).2.
Proof.
  split_and!; [by vm_compute | by vm_compute |].
  vm_compute. intros Hin.
  repeat (apply elem_of_cons in Hin as [Hin | Hin]; [discriminate |]).
  by apply elem_of_nil in Hin.
Qed.

(** * More properties of the code *)

(** ** Month navigation by any number of months *)

Lemma MakeDay_normal y k dt : MakeDay y k dt = MakeDay (y + k / 12) (k mod 12) dt.
Proof.
  unfold MakeDay.
  assert ((k mod 12) / 12 = 0) as -> by (Z.div_mod_to_equations; lia).
  assert ((k mod 12) mod 12 = k mod 12) as -> by (Z.div_mod_to_equations; lia).
  by rewrite Z.add_0_r.
Qed.

Section MonthNavigationAny.
Context `{TimeZone}.

(** The local time of the date [setMonth] makes, when it is a local time
    of the zone. *)
Lemma setMonth_local_time t k dt u :
  roundTrips (MakeDate (MakeDay (YearFromTime (LocalTime t)) k dt)
                       (TimeWithinDay (LocalTime t))) →
  setMonth (Some t) (Some k) (Some dt) = Some u →
  LocalTime u = MakeDate (MakeDay (YearFromTime (LocalTime t)) k dt)
                         (TimeWithinDay (LocalTime t)).
Proof.
  intros Hrt. rewrite setMonth_Some. intros Hu.
  apply TimeClip_Some in Hu as [-> _]. exact Hrt.
Qed.

(** X1.  [changeMonth(delta)], for any number of months: when its result
    is a valid date and the 1st of the month aimed at is a day of the
    host's time zone, the month on view moves by [delta] months (the month
    index is reduced modulo 12 and the quotient carried into the year) and
    the day of the month becomes 1; the time of day is kept when that time
    of the 1st is a local time of the zone (one that the clocks skip is
    moved, [changeMonth_over_a_gap]); the mapping, the selected student,
    the selected day and the modal flag are not touched. *)
Theorem changeMonth_any_delta st t y m delta :
  currentDate st = Some t → viewedMonth st = Some (y, m) →
  is_Some (currentDate (changeMonth delta st)) →
  dayKept (MakeDay y (m + delta) 1) →
  viewedMonth (changeMonth delta st)
  = Some (y + (m + delta) / 12, (m + delta) mod 12)
  ∧ getDate (currentDate (changeMonth delta st)) = Some 1
  ∧ (roundTrips (MakeDate (MakeDay y (m + delta) 1) (TimeWithinDay (LocalTime t))) →
     (TimeWithinDay ∘ LocalTime) <$> currentDate (changeMonth delta st)
     = Some (TimeWithinDay (LocalTime t)))
  ∧ attendance (changeMonth delta st) = attendance st
  ∧ selectedStudentId (changeMonth delta st) = selectedStudentId st
  ∧ selectedDay (changeMonth delta st) = selectedDay st
  ∧ isModalOpen (changeMonth delta st) = isModalOpen st.
Proof.
  intros Ht Hview [u Hu] Hkept.
  rewrite (viewedMonth_valid st t Ht) in Hview. injection Hview as Hy Hm.
  rewrite (viewedMonth_valid (changeMonth delta st) u Hu), Hu.
  rewrite (changeMonth_currentDate delta st t Ht), Hm in Hu.
  destruct (setMonth_first_fields t (m + delta) u
              (y + (m + delta) / 12) ((m + delta) mod 12))
    as (Hy1 & Hm1 & Hd1);
    [by rewrite Hy, <- MakeDay_normal | | by rewrite <- MakeDay_normal | done |].
  { Z.div_mod_to_equations. lia. }
  unfold getDate. cbn [fmap option_fmap option_map compose].
  rewrite Hy1, Hm1, Hd1. split_and!; try done.
  intros Hrt. f_equal.
  rewrite (setMonth_local_time t (m + delta) 1 u) by (by rewrite Hy || done).
  apply TimeWithinDay_MakeDate, TimeWithinDay_range.
Qed.

(** X2.  Two changes of month in a row are one change by the sum: after a
    [changeMonth(a)] whose result is a valid date, at a local time of the
    host's zone (not one that the clocks skip), [changeMonth(b)] gives the
    very state of [changeMonth(a + b)].  In particular back-then-forward
    and forward-then-back both end on the 1st of the starting month. *)
Theorem changeMonth_compose st t y m a b :
  currentDate st = Some t → viewedMonth st = Some (y, m) →
  is_Some (currentDate (changeMonth a st)) →
  roundTrips (MakeDate (MakeDay y (m + a) 1) (TimeWithinDay (LocalTime t))) →
  changeMonth b (changeMonth a st) = changeMonth (a + b) st.
Proof.
  intros Ht Hview [u Hu] Hrt.
  rewrite (viewedMonth_valid st t Ht) in Hview. injection Hview as Hy Hm.
  assert (Hdate : currentDate (changeMonth b (changeMonth a st))
                  = currentDate (changeMonth (a + b) st)).
  { rewrite (changeMonth_currentDate b _ u Hu), (changeMonth_currentDate (a + b) st t Ht).
    rewrite (changeMonth_currentDate a st t Ht), Hm in Hu.
    pose proof (MonthFromTime_range (LocalTime t)) as Hr. rewrite Hm in Hr.
    pose proof (setMonth_local_time t (m + a) 1 u) as Hlocal.
    rewrite Hy in Hlocal. specialize (Hlocal Hrt Hu).
    assert (Hm' : 0 ≤ (m + a) mod 12 ≤ 11) by (Z.div_mod_to_equations; lia).
    pose proof (daysInMonth_range (y + (m + a) / 12) ((m + a) mod 12)).
    destruct (fields_of_MakeDay (y + (m + a) / 12) ((m + a) mod 12) 1 (LocalTime u))
      as (Hy1 & Hm1 & _); [done | lia | |].
    { rewrite Hlocal, Day_MakeDate by apply TimeWithinDay_range.
      apply MakeDay_normal. }
    rewrite !setMonth_Some, Hy1, Hm1, Hy, Hm. rewrite Hlocal at 1.
    rewrite TimeWithinDay_MakeDate by apply TimeWithinDay_range.
    do 3 f_equal. unfold MakeDay.
    assert (y + (m + a) / 12 + ((m + a) mod 12 + b) / 12 = y + (m + (a + b)) / 12)
      as -> by (Z.div_mod_to_equations; lia).
    assert (((m + a) mod 12 + b) mod 12 = (m + (a + b)) mod 12)
      as -> by (Z.div_mod_to_equations; lia).
    reflexivity. }
  unfold changeMonth, setCurrentDate in *. cbn [currentDate selectedStudentId
    attendance isLoadingAttendance isModalOpen isStudentManagerOpen selectedDay] in *.
  by rewrite Hdate.
Qed.

End MonthNavigationAny.

Section MonthNavigationAnyAsuncion.
Local Existing Instance tz_Asuncion.

(** On a host in America/Asuncion, from September 1, 2017 at 00:30 local
    time: two steps of one month pass over the 1st of October, where 00:30
    is skipped, and arrive at 01:30 of November 1; one step of two months
    arrives at 00:30. *)
Example changeMonth_twice_over_a_gap :
  let st := dashboard_on (Some 1504240200000) ∅ None in
  currentDate (changeMonth 1 (changeMonth 1 st)) = Some 1509510600000
  ∧ currentDate (changeMonth 2 st) = Some 1509507000000
  ∧ viewedMonth (changeMonth 1 (changeMonth 1 st)) = viewedMonth (changeMonth 2 st).
Proof. by vm_compute. Qed.

End MonthNavigationAnyAsuncion.

(** ** Parent login, the roster and the screens of App *)

Lemma find_id_Some (students : list Student) sid s :
  List.find (λ s, bool_decide (id s = sid)) students = Some s →
  s ∈ students ∧ id s = sid.
Proof.
  intros Hf. apply find_some in Hf as [Hin Hid].
  split; [by apply list_elem_of_In | by apply bool_decide_eq_true in Hid].
Qed.

Lemma find_id_None (students : list Student) sid :
  List.find (λ s, bool_decide (id s = sid)) students = None ↔
  ¬ ∃ s, s ∈ students ∧ id s = sid.
Proof.
  split.
  - intros Hf (s & Hin & Hid). apply list_elem_of_In in Hin.
    pose proof (find_none _ _ Hf s Hin) as Hn. simpl in Hn.
    by apply bool_decide_eq_false in Hn.
  - intros Hno. destruct (List.find _ students) as [s |] eqn:Hf; [| done].
    apply find_id_Some in Hf. exfalso. eauto.
Qed.

(** X5.  From the login screen (no session), submitting the parent form
    establishes a session for a student only if that student is in the
    roster under the selected id; it does so, leaving the form as it is,
    whenever the roster has such a student; otherwise no session is
    established and the error "Please select a student." is shown.  It never
    establishes the tutor session. *)
Theorem parent_login_iff_roster (students : list Student) (ls : LoginScreen) :
  (∀ s, (App_parentLogin students ls None).2 = Some (parent s) →
        s ∈ students ∧ id s = selectedStudent ls)
  ∧ ((∃ s, s ∈ students ∧ id s = selectedStudent ls) →
     (∃ s, (App_parentLogin students ls None).2 = Some (parent s))
     ∧ (App_parentLogin students ls None).1 = ls)
  ∧ ((¬ ∃ s, s ∈ students ∧ id s = selectedStudent ls) →
     (App_parentLogin students ls None).2 = None
     ∧ shownError (App_parentLogin students ls None).1
       = Some (js "Please select a student."))
  ∧ (App_parentLogin students ls None).2 ≠ Some tutor.
Proof.
  unfold App_parentLogin, handleParentLogin.
  destruct (List.find _ students) as [s |] eqn:Hf; cbn [fst snd handleLogin].
  - apply find_id_Some in Hf. split_and!; [by intros ? [= <-] | eauto | | done].
    intros Hno. exfalso. eauto.
  - apply find_id_None in Hf.
    split_and!; (done || (intros Hex; by destruct Hf)).
Qed.

Lemma selectionEffect_keep (students : list Student) (st : Dashboard) :
  (∃ s, s ∈ students ∧ id s = selectedStudentId st) →
  selectionEffect true students st = st.
Proof.
  intros Hex. unfold selectionEffect. destruct students as [| s0 l]; [done |].
  destruct (List.find _ (s0 :: l)) as [s |] eqn:Hf; [done |].
  apply find_id_None in Hf. by destruct Hf.
Qed.

Lemma selectionEffect_move (students : list Student) (st : Dashboard) :
  (¬ ∃ s, s ∈ students ∧ id s = selectedStudentId st) →
  selectedStudentId (selectionEffect true students st)
  = from_option id (selectedStudentId st) (head students).
Proof.
  intros Hno. unfold selectionEffect. destruct students as [| s0 l]; [done |].
  apply find_id_None in Hno. by rewrite Hno.
Qed.

Lemma selectionEffect_in_roster (students : list Student) (st : Dashboard) :
  students ≠ [] →
  ∃ s, s ∈ students ∧ id s = selectedStudentId (selectionEffect true students st).
Proof.
  intros Hne.
  destruct (List.find (λ s, bool_decide (id s = selectedStudentId st)) students)
    as [s |] eqn:Hf.
  - apply find_id_Some in Hf as [Hs Hid]. exists s.
    rewrite selectionEffect_keep by eauto. done.
  - apply find_id_None in Hf. rewrite (selectionEffect_move _ _ Hf).
    destruct students as [| s0 l]; [done |]. exists s0.
    split; [apply list_elem_of_here | done].
Qed.

(** X6.  The effect that follows a change of the roster, for the tutor:
    with a non-empty roster the selected id is afterwards the id of a
    student of the roster; a selection that is in the roster is kept, any
    other moves to the first student; running the effect again changes
    nothing.  For a parent the effect does nothing. *)
Theorem selectionEffect_selects_from_roster (students : list Student) (st : Dashboard) :
  (students ≠ [] →
   ∃ s, s ∈ students ∧ id s = selectedStudentId (selectionEffect true students st))
  ∧ ((∃ s, s ∈ students ∧ id s = selectedStudentId st) →
     selectionEffect true students st = st)
  ∧ ((¬ ∃ s, s ∈ students ∧ id s = selectedStudentId st) →
     selectedStudentId (selectionEffect true students st)
     = from_option id (selectedStudentId st) (head students))
  ∧ selectionEffect true students (selectionEffect true students st)
    = selectionEffect true students st
  ∧ selectionEffect false students st = st.
Proof.
  split_and!.
  - apply selectionEffect_in_roster.
  - apply selectionEffect_keep.
  - apply selectionEffect_move.
  - destruct students as [| s0 l]; [done |].
    apply selectionEffect_keep. by apply selectionEffect_in_roster.
  - unfold selectionEffect. by destruct students.
Qed.

(** X15.  With a client, after [fetchStudents] the App is past the
    "Connecting" screen whether the request succeeded or failed: it shows
    the login screen without a session and the dashboard with one.  A failed
    request keeps the roster it had, a successful one stores the rows (none
    for a null [data]).  Without a client nothing is fetched and the setup
    screen is shown. *)
Theorem App_after_fetchStudents client (roster : Roster) (user : option User) :
  let roster' := (fetchStudents (Some client) roster).1 in
  App (Some client) roster' user
  = match user with
    | None => LoginScreen_screen
    | Some u => Dashboard_screen u
    end
  ∧ (is_Some (error (on_students_select client)) → students roster' = students roster)
  ∧ (error (on_students_select client) = None →
     students roster' = default [] (data (on_students_select client)))
  ∧ fetchStudents None roster = (roster, [])
  ∧ App None roster user = SupabaseSetup_screen.
Proof.
  unfold fetchStudents, App.
  destruct (error (on_students_select client)) as [e |]; cbn [fst isLoaded students negb];
    split_and!; (done || by intros [? [=]]).
Qed.

(** ** What the attendance effect and the steps leave alone *)

Section EffectFrame.
Context `{TimeZone}.

(** X10.  With a client, the attendance effect always ends with the
    loading flag off, whether a student is selected or not and whether the
    request succeeds or fails; it leaves the date on view, the selected
    student, the two modal flags and the selected day as they are; it sends
    no request when no student is selected and exactly one, a range request
    for the selected student, otherwise. *)
Theorem attendanceEffect_frame client (st : Dashboard) :
  let st' := (attendanceEffect (Some client) st).1 in
  isLoadingAttendance st' = false
  ∧ currentDate st' = currentDate st
  ∧ selectedStudentId st' = selectedStudentId st
  ∧ isModalOpen st' = isModalOpen st
  ∧ isStudentManagerOpen st' = isStudentManagerOpen st
  ∧ selectedDay st' = selectedDay st
  ∧ (selectedStudentId st = [] → (attendanceEffect (Some client) st).2 = [])
  ∧ (selectedStudentId st ≠ [] →
     ∃ gte lte evs,
       (attendanceEffect (Some client) st).2
       = Sent (attendance_select (selectedStudentId st) gte lte) :: evs
       ∧ Forall (λ e, ∀ q, e ≠ Sent q) evs).
Proof.
  unfold attendanceEffect, fetchAttendanceForMonth.
  destruct (selectedStudentId st) as [| c sid] eqn:Hsid; cbn [truthy_string].
  - by split_and!.
  - destruct (error _) as [e |]; [| destruct (data _) as [rows |]];
      cbn [fst snd isLoadingAttendance currentDate selectedStudentId isModalOpen
           isStudentManagerOpen selectedDay setIsLoadingAttendance setAttendance];
      (split_and!; [done .. | ]); intros _; eexists _, _, _;
      (split; [reflexivity |]); repeat constructor; by intros q.
Qed.

Lemma attendanceEffect_modal supabase (st : Dashboard) :
  isModalOpen (attendanceEffect supabase st).1 = isModalOpen st
  ∧ selectedDay (attendanceEffect supabase st).1 = selectedDay st.
Proof.
  unfold attendanceEffect, fetchAttendanceForMonth.
  destruct (selectedStudentId st) as [| c sid]; cbn [truthy_string]; [done |].
  destruct supabase as [client |]; [| done].
  by destruct (error _) as [e |]; [| destruct (data _) as [rows |]].
Qed.

(** X9.  Every step of the dashboard keeps this: while the modal is open
    a day is selected. *)
Theorem modal_open_has_day supabase (a : Action) (st : Dashboard) :
  (isModalOpen st = true → is_Some (selectedDay st)) →
  isModalOpen (Dashboard_step supabase a st).1 = true →
  is_Some (selectedDay (Dashboard_step supabase a st).1).
Proof.
  intros Hinv. destruct a as [delta | sid | d | | record]; cbn [Dashboard_step].
  - destruct (attendanceEffect_modal supabase (changeMonth delta st)) as [-> ->].
    exact Hinv.
  - destruct (decide (sid = selectedStudentId st)); [done |].
    destruct (attendanceEffect_modal supabase (setSelectedStudentId sid st)) as [-> ->].
    exact Hinv.
  - by eexists.
  - done.
  - unfold handleSaveAttendance. destruct supabase as [client |]; [| done].
    destruct (truthy_day (selectedDay st)); [| done].
    by destruct (error _).
Qed.

End EffectFrame.

(** ** The edit modal on a day of the calendar *)

Section Modal.
Context `{TimeZone}.

Lemma calendarGrid_day_item (year month : Number) (attendance : AttendanceData)
    (key : jsstring) (d : Z) (record : option AttendanceRecord) :
  day key d record ∈ calendarGrid year month attendance →
  1 ≤ d ∧ key = dateStr year month (Some d) ∧ record = attendance !! key.
Proof.
  unfold calendarGrid. rewrite elem_of_app, !list_elem_of_fmap.
  intros [(i & [=] & _) | (d' & [= -> -> ->] & Hd)].
  split; [| done]. unfold for_le in Hd.
  destruct (getDate _) as [b |]; [| by apply elem_of_nil in Hd].
  apply elem_of_seqZ in Hd. lia.
Qed.

(** X8.  A click on a day cell of the grid opens the modal on that cell:
    the selected date string is the key of the cell, and the record the
    modal is given is the record the cell shows (none if the cell shows
    none); the mapping is not touched. *)
Theorem modal_opens_on_cell_record (st : Dashboard) (key : jsstring) (d : Z)
    (record : option AttendanceRecord) :
  selectedStudentId st ≠ [] →
  day key d record
  ∈ calendarGrid (getFullYear (currentDate st)) (getMonth (currentDate st))
                 (attendance st) →
  let st' := handleDayClick d st in
  isModalOpen st' = true
  ∧ selectedDateStr st' = key
  ∧ currentRecordForModal st' = record
  ∧ attendance st' = attendance st.
Proof.
  intros Hsid Hitem. apply calendarGrid_day_item in Hitem as (Hd & -> & ->).
  unfold currentRecordForModal, selectedDateStr, handleDayClick.
  cbn [isModalOpen selectedDay selectedStudentId currentDate attendance
       setIsModalOpen setSelectedDay truthy_day].
  assert (negb (d =? 0) = true) as -> by (apply negb_true_iff; lia).
  by destruct (selectedStudentId st).
Qed.

Lemma modalEffect_record (r : AttendanceRecord) (ms : AttendanceModal) :
  {| status := modal_status (modalEffect true (Some r) ms);
     comment := Some (modal_comment (modalEffect true (Some r) ms)) |} = unedited r.
Proof.
  destruct r as [s [c |]]; unfold modalEffect, unedited;
    cbn [from_option status comment modal_status modal_comment mbind option_bind
         default]; [by destruct c | done].
Qed.

Lemma unedited_with_comment (r : AttendanceRecord) :
  is_Some (comment r) → unedited r = r.
Proof. destruct r as [s c]. by intros [c' [= ->]]. Qed.

(** X7.  Opening the modal on a day and pressing Save without an edit.
    When the day has a record: an upsert that is sent carries the status of
    that record and its comment, the empty string if the stored comment is
    null; when the upsert succeeds that record is stored under the date;
    and when the stored comment is not null the mapping is the same
    afterwards, whether the upsert succeeds, fails, or the client is absent.
    When the day has no record and the upsert succeeds, the day gets the
    record present with an empty comment. *)
Theorem save_unedited_modal (supabase : option SupabaseClient) (st : Dashboard)
    (ms : AttendanceModal) (d : Z) :
  selectedStudentId st ≠ [] → d ≠ 0 →
  let opened := Dashboard_openDay d st ms in
  let key := selectedDateStr opened.1 in
  let saved := Dashboard_saveModal supabase opened.2 opened.1 in
  (∀ r, attendance st !! key = Some r →
        (∀ row, Sent (attendance_upsert row) ∈ saved.2 →
                row = {| student_id := selectedStudentId st; date := key;
                         record_of := unedited r |})
        ∧ (∀ client, supabase = Some client →
             error (on_attendance_upsert client
                      {| student_id := selectedStudentId st; date := key;
                         record_of := unedited r |}) = None →
             attendance saved.1 = <[key := unedited r]> (attendance st))
        ∧ (is_Some (comment r) → attendance saved.1 = attendance st))
  ∧ (attendance st !! key = None →
     ∀ client, supabase = Some client →
       error (on_attendance_upsert client
                {| student_id := selectedStudentId st; date := key;
                   record_of := {| status := present; comment := Some [] |} |}) = None →
       attendance saved.1
       = <[key := {| status := present; comment := Some [] |}]> (attendance st)).
Proof.
  intros Hsid Hd opened key saved. subst saved key opened.
  unfold Dashboard_saveModal, handleSave, Dashboard_openDay. cbn [fst snd].
  set (key := selectedDateStr (handleDayClick d st)).
  assert (Hrec : currentRecordForModal (handleDayClick d st) = attendance st !! key).
  { subst key. unfold currentRecordForModal, handleDayClick.
    cbn [isModalOpen selectedDay selectedStudentId currentDate attendance
         setIsModalOpen setSelectedDay truthy_day].
    assert (negb (d =? 0) = true) as -> by (apply negb_true_iff; lia).
    by destruct (selectedStudentId st). }
  assert (Hday : truthy_day (selectedDay (handleDayClick d st)) = true).
  { unfold handleDayClick. cbn [selectedDay setIsModalOpen setSelectedDay truthy_day].
    apply negb_true_iff. lia. }
  unfold handleSaveAttendance, upsertRow. rewrite Hday, Hrec. fold key.
  change (isModalOpen (handleDayClick d st)) with true.
  change (selectedStudentId (handleDayClick d st)) with (selectedStudentId st).
  split.
  - intros r Hr. rewrite Hr, modalEffect_record.
    destruct supabase as [client |];
      [| split_and!; [by intros row Hin; apply elem_of_nil in Hin | done | done]].
    destruct (error _) as [e |] eqn:He;
      cbn [fst snd attendance setAttendance setSelectedDay setIsModalOpen handleDayClick].
    + split_and!; [| intros ? [= <-]; congruence | done].
      intros row Hin.
      apply elem_of_cons in Hin as [[= ->] | Hin]; [done |].
      apply elem_of_cons in Hin as [[=] | Hin]. by apply elem_of_nil in Hin.
    + split_and!; [| done |].
      * intros row Hin.
        apply elem_of_cons in Hin as [[= ->] | Hin]; [done |].
        by apply elem_of_nil in Hin.
      * intros Hc. rewrite unedited_with_comment by done. by apply insert_id.
  - intros Hnone client -> Hok. rewrite Hnone.
    unfold modalEffect. cbn [from_option modal_status modal_comment mbind option_bind].
    rewrite Hok. done.
Qed.

End Modal.

Section ModalDate.
Context `{TimeZone}.

(** X16.  With a day of the month on view selected (a year other than
    0..99, a date within the range of Date, a day whose local midnight the
    host's time zone does not skip to another day), the date in the
    heading of the modal is that day: its year and month are those on view,
    its date is the selected day, and its weekday is the weekday of the
    calendar. *)
Theorem selectedDateForModal_fields (st : Dashboard) (y m d : Z) :
  viewedMonth st = Some (y, m) → selectedDay st = Some d →
  ¬ (0 ≤ y ≤ 99) → 1 ≤ d ≤ Gregorian.daysInMonth y m →
  representable (midnight y m d) → keepsDay (midnight y m d) →
  ∃ dt, selectedDateForModal st = Some dt
        ∧ getFullYear dt = Some y ∧ getMonth dt = Some m ∧ getDate dt = Some d
        ∧ getDay dt = Some (Gregorian.weekday y m d).
Proof.
  intros Hview Hd Hy Hr Hrep Hk.
  apply viewedMonth_Some in Hview as (t & Ht & Hyt & Hmt).
  pose proof (MonthFromTime_range (LocalTime t)) as Hm. rewrite Hmt in Hm.
  unfold selectedDateForModal. rewrite (truthy_day_selected st d Hd) by lia.
  assert (Hnew : Date_new (getFullYear (currentDate st)) (getMonth (currentDate st))
                          (selectedDay st) = Some (UTC (midnight y m d))).
  { rewrite Ht, Hd. unfold getFullYear, getMonth. cbn [fmap option_fmap option_map].
    rewrite Hyt, Hmt. by apply Date_new_full_year. }
  rewrite Hnew. eexists. split; [reflexivity |].
  unfold getFullYear, getMonth, getDate, getDay. cbn [fmap option_fmap option_map].
  destruct (fields_of_kept_day y m d (midnight y m d) Hm Hr (Day_midnight y m d) Hk)
    as (-> & -> & ->).
  unfold WeekDay. unfold keepsDay in Hk. by rewrite Hk, Day_midnight, weekday_of_MakeDay.
Qed.

End ModalDate.

(** ** The mapping of a response *)

(** When rows of one date carry one record, every row is kept. *)
Lemma newAttendanceData_record (rows : list CalendarDayData) (r : CalendarDayData) :
  (∀ r1 r2, r1 ∈ rows → r2 ∈ rows → date r1 = date r2 → record_of r1 = record_of r2) →
  r ∈ rows →
  newAttendanceData rows !! date r = Some (record_of r).
Proof.
  induction rows as [| x rows IH] using rev_ind; intros Hkey Hr.
  - by apply elem_of_nil in Hr.
  - rewrite newAttendanceData_snoc.
    destruct (decide (date x = date r)) as [Heq | Hne].
    + rewrite Heq, lookup_insert_eq. f_equal.
      apply Hkey; [| done | done]. apply elem_of_app. right. apply list_elem_of_here.
    + rewrite lookup_insert_ne by done. apply IH.
      * intros r1 r2 H1 H2. apply Hkey; apply elem_of_app; by left.
      * apply elem_of_app in Hr as [Hr | Hr]; [done |].
        apply elem_of_cons in Hr as [-> | Hr]; [done | by apply elem_of_nil in Hr].
Qed.

Lemma newAttendanceData_size (rows : list CalendarDayData) :
  (size (newAttendanceData rows) ≤ length rows)%nat.
Proof.
  induction rows as [| x rows IH] using rev_ind; [done |].
  rewrite newAttendanceData_snoc, length_app. simpl.
  destruct (newAttendanceData rows !! date x) eqn:E.
  - rewrite map_size_insert_Some by done. lia.
  - rewrite map_size_insert_None by done. lia.
Qed.

Section FetchRecords.
Context `{TimeZone}.

(** The same from the table of the gateway, under its uniqueness
    constraint on (student, date). *)
Lemma fetch_gives_table_records (date_le : jsstring → jsstring → bool)
    (table : list CalendarDayData) client (st : Dashboard) (r : CalendarDayData) :
  selectedStudentId st ≠ [] →
  on_attendance_select client = gateway_select date_le table →
  (∀ r1 r2, r1 ∈ table → r2 ∈ table → student_id r1 = student_id r2 →
            date r1 = date r2 → record_of r1 = record_of r2) →
  r ∈ table → student_id r = selectedStudentId st →
  date_le (firstDay (getFullYear (currentDate st)) (getMonth (currentDate st)))
          (date r) = true →
  date_le (date r)
          (lastDayOfMonth (getFullYear (currentDate st)) (getMonth (currentDate st)))
  = true →
  attendance (attendanceEffect (Some client) st).1 !! date r = Some (record_of r).
Proof.
  intros Hsid Hclient Hkey Hr Hs Hlo Hhi.
  set (gte := firstDay _ _) in *. set (lte := lastDayOfMonth _ _) in *.
  pose (rows := List.filter
                  (λ r, bool_decide (student_id r = selectedStudentId st)
                        && date_le gte (date r) && date_le (date r) lte) table).
  assert (Hreply : on_attendance_select client (selectedStudentId st) gte lte
                   = {| data := Some rows; error := None |}) by by rewrite Hclient.
  assert (Hrows : ∀ r, r ∈ rows ↔ r ∈ table ∧ student_id r = selectedStudentId st
                          ∧ date_le gte (date r) = true ∧ date_le (date r) lte = true).
  { intros r'. by apply (gateway_select_rows date_le table (selectedStudentId st) gte lte). }
  rewrite attendanceEffect_selected by done.
  rewrite (fetchAttendanceForMonth_rows client _ _ st rows Hsid Hreply).
  cbn [fst attendance setAttendance setIsLoadingAttendance].
  apply newAttendanceData_record; [| by apply Hrows].
  intros r1 r2 H1 H2 Hd. apply Hrows in H1 as (? & ? & _), H2 as (? & ? & _).
  apply Hkey; congruence.
Qed.

End FetchRecords.

(** ** Trimmed names *)

Lemma trimStart_snoc_nonws p c :
  isWhiteSpace c = false → ∃ q, trimStart (p ++ [c]) = q ++ [c].
Proof.
  intros Hc. induction p as [| x p [q Hq]]; simpl.
  - rewrite Hc. by exists [].
  - destruct (isWhiteSpace x); [by exists q |]. by exists (x :: p).
Qed.

Lemma trimStart_idem s : trimStart (trimStart s) = trimStart s.
Proof.
  destruct (trimStart s) as [| c s'] eqn:Es; [done |].
  apply trimStart_head in Es. simpl. by rewrite Es.
Qed.

Lemma trimStart_split s :
  ∃ p, s = p ++ trimStart s ∧ Forall (λ c, isWhiteSpace c = true) p.
Proof.
  induction s as [| c s (p & Hp & Hws)]; simpl; [by exists [] |].
  destruct (isWhiteSpace c) eqn:Ec; [| by exists []].
  exists (c :: p). split; [simpl; by rewrite <- Hp | by constructor].
Qed.

Lemma trimStart_fixed s :
  (∀ c, head s = Some c → isWhiteSpace c = false) → trimStart s = s.
Proof. destruct s as [| c s]; [done |]. intros Hc. simpl. by rewrite Hc. Qed.

(** What [trim] returns: no white space at either end, nothing more to
    trim, and the input is the result between two runs of white space. *)
Lemma trim_no_outer_white_space (s : jsstring) :
  (∀ c, head (trim s) = Some c → isWhiteSpace c = false)
  ∧ (∀ c, last (trim s) = Some c → isWhiteSpace c = false)
  ∧ trim (trim s) = trim s
  ∧ (∃ p q, s = p ++ trim s ++ q
            ∧ Forall (λ c, isWhiteSpace c = true) p
            ∧ Forall (λ c, isWhiteSpace c = true) q).
Proof.
  assert (Hhead : ∀ c, head (trim s) = Some c → isWhiteSpace c = false).
  { unfold trim, trimEnd. destruct (trimStart s) as [| c x] eqn:Ex; [done |].
    apply trimStart_head in Ex. rewrite reverse_cons.
    destruct (trimStart_snoc_nonws (reverse x) c Ex) as [q ->].
    rewrite reverse_app. simpl. by intros ? [= <-]. }
  assert (Hlast : ∀ c, last (trim s) = Some c → isWhiteSpace c = false).
  { unfold trim, trimEnd. intros c. rewrite last_reverse.
    destruct (trimStart (reverse (trimStart s))) as [| c' y] eqn:Ey; [done |].
    intros [= <-]. by apply trimStart_head in Ey. }
  split_and!; [done | done | |].
  - unfold trim at 1. rewrite (trimStart_fixed (trim s)) by done.
    unfold trim, trimEnd. by rewrite reverse_involutive, trimStart_idem.
  - destruct (trimStart_split s) as (p & Hp & Hpw).
    destruct (trimStart_split (reverse (trimStart s))) as (p' & Hp' & Hpw').
    exists p, (reverse p'). split_and!; [| done | by apply Forall_reverse].
    rewrite Hp at 1. f_equal. unfold trim, trimEnd.
    apply (f_equal reverse) in Hp'. rewrite reverse_involutive, reverse_app in Hp'.
    done.
Qed.

(** X12.  Whenever adding a student sends an insert request, the name in
    it is the trimmed form of the name typed: it is not empty, it neither
    starts nor ends with white space, and the name typed is that name
    between two runs of white space. *)
Theorem addStudent_sends_trimmed_name (supabase : option SupabaseClient)
    (newName : jsstring) (roster : Roster) (name : jsstring) :
  Sent (students_insert name) ∈ (Dashboard_addStudent supabase newName roster).2 →
  name = trim newName ∧ name ≠ []
  ∧ (∀ c, head name = Some c → isWhiteSpace c = false)
  ∧ (∀ c, last name = Some c → isWhiteSpace c = false)
  ∧ (∃ p q, newName = p ++ name ++ q
            ∧ Forall (λ c, isWhiteSpace c = true) p
            ∧ Forall (λ c, isWhiteSpace c = true) q).
Proof.
  intros Hin.
  assert (Hname : name = trim newName ∧ name ≠ []).
  { unfold Dashboard_addStudent, addStudent in Hin.
    destruct supabase as [client |]; [| by apply elem_of_nil in Hin].
    destruct (trim newName) as [| c s] eqn:Et; cbn [truthy_string] in Hin;
      [by apply elem_of_nil in Hin |].
    destruct (error _).
    - apply elem_of_cons in Hin as [[= ->] | Hin]; [done |].
      apply elem_of_cons in Hin as [[=] | Hin]. by apply elem_of_nil in Hin.
    - destruct (fetchStudents (Some client) roster) as [r evs] eqn:Ef.
      cbn [snd] in Hin. apply elem_of_cons in Hin as [[= ->] | Hin]; [done |].
      unfold fetchStudents in Ef. destruct (error _); injection Ef as <- <-.
      + apply elem_of_cons in Hin as [[=] | Hin].
        apply elem_of_cons in Hin as [[=] | Hin]. by apply elem_of_nil in Hin.
      + apply elem_of_cons in Hin as [[=] | Hin]. by apply elem_of_nil in Hin. }
  destruct Hname as [-> Hne].
  destruct (trim_no_outer_white_space newName) as (? & ? & _ & ?). done.
Qed.

(** ** Date strings *)

Lemma pad2_inj d1 d2 :
  0 ≤ d1 ≤ 99 → 0 ≤ d2 ≤ 99 →
  padStart 2 (js "0") (ToString (Some d1)) = padStart 2 (js "0") (ToString (Some d2)) →
  d1 = d2.
Proof.
  intros H1 H2. rewrite !pad2_digits by done. intros [= Ha Hb].
  apply (f_equal Z.of_N) in Ha, Hb. rewrite !Z2N.id in Ha, Hb by (Z.div_mod_to_equations; lia).
  Z.div_mod_to_equations. lia.
Qed.

(** The date strings of two days of one month differ, whatever the year and
    the month are (also NaN). *)
Lemma dateStr_day_inj (year month : Number) d1 d2 :
  0 ≤ d1 ≤ 99 → 0 ≤ d2 ≤ 99 →
  dateStr year month (Some d1) = dateStr year month (Some d2) → d1 = d2.
Proof.
  intros H1 H2 E. unfold dateStr in E.
  do 4 apply app_inv_head in E. by apply pad2_inj.
Qed.

(** X17.  For a year of four digits, a month 0..11 and a day below 100,
    the date string is the ten code units YYYY-MM-DD: decimal digits with
    '-' in the fifth and eighth place, month and day padded to two digits,
    the month written from 1. *)
Theorem dateStr_iso_shape (y m d : Z) :
  1000 ≤ y ≤ 9999 → 0 ≤ m ≤ 11 → 0 ≤ d ≤ 99 →
  dateStr (Some y) (Some m) (Some d)
  = [Z.to_N (48 + y / 1000); Z.to_N (48 + y / 100 mod 10);
     Z.to_N (48 + y / 10 mod 10); Z.to_N (48 + y mod 10); 45%N;
     Z.to_N (48 + (m + 1) / 10); Z.to_N (48 + (m + 1) mod 10); 45%N;
     Z.to_N (48 + d / 10); Z.to_N (48 + d mod 10)].
Proof.
  intros Hy Hm Hd. unfold dateStr. change (num_add (Some m) 1) with (Some (m + 1)).
  by rewrite year4_digits, !pad2_digits by lia.
Qed.

(** X18.  For years of four digits, two date strings are equal only for
    the same year, month and day: no two days of the calendar share a key of
    the mapping. *)
Theorem dateStr_inj (y1 m1 d1 y2 m2 d2 : Z) :
  1000 ≤ y1 ≤ 9999 → 0 ≤ m1 ≤ 11 → 0 ≤ d1 ≤ 99 →
  1000 ≤ y2 ≤ 9999 → 0 ≤ m2 ≤ 11 → 0 ≤ d2 ≤ 99 →
  dateStr (Some y1) (Some m1) (Some d1) = dateStr (Some y2) (Some m2) (Some d2) →
  y1 = y2 ∧ m1 = m2 ∧ d1 = d2.
Proof.
  intros Hy1 Hm1 Hd1 Hy2 Hm2 Hd2. unfold dateStr.
  change (num_add (Some m1) 1) with (Some (m1 + 1)).
  change (num_add (Some m2) 1) with (Some (m2 + 1)).
  rewrite (year4_digits y1), (year4_digits y2) by done.
  rewrite (pad2_digits (m1 + 1)), (pad2_digits (m2 + 1)) by lia.
  rewrite (pad2_digits d1), (pad2_digits d2) by done.
  change (js "-") with [45%N]. cbn [app].
  intros [= Ha Hb Hc Hd He Hf Hg Hh].
  repeat match goal with
         | E : Z.to_N _ = Z.to_N _ |- _ =>
             apply (f_equal Z.of_N) in E;
             rewrite !Z2N.id in E by (Z.div_mod_to_equations; lia)
         end.
  Z.div_mod_to_equations. lia.
Qed.

(** ** More on the Date algorithms *)

Lemma DayWithinYear_range t :
  0 ≤ DayWithinYear t < DaysInYear (YearFromTime t).
Proof.
  unfold DayWithinYear, YearFromTime.
  pose proof (YearFromDay_spec (Day t)) as Hs.
  rewrite DayFromYear_step in Hs. lia.
Qed.

Lemma DateFromTime_range t :
  1 ≤ DateFromTime t
  ≤ Gregorian.daysInMonth (YearFromTime t) (MonthFromTime t).
Proof.
  pose proof (DayWithinYear_range t) as Hr.
  unfold DateFromTime, MonthFromTime, InLeapYear, Gregorian.daysInMonth.
  rewrite DaysInYear_leap in *.
  destruct (Gregorian.isLeapYear (YearFromTime t)); simpl;
    repeat case_if; simpl; lia.
Qed.

(** The day number is recovered from the year, month and date. *)
Lemma Day_of_fields t :
  Day t = MakeDay (YearFromTime t) (MonthFromTime t) (DateFromTime t).
Proof.
  pose proof (MonthFromTime_range t) as Hm.
  unfold MakeDay, DayFromYearMonth.
  assert (MonthFromTime t / 12 = 0) as -> by (Z.div_mod_to_equations; lia).
  assert (MonthFromTime t mod 12 = MonthFromTime t) as ->
    by (Z.div_mod_to_equations; lia).
  rewrite Z.add_0_r. clear Hm.
  unfold DateFromTime, MonthFromTime, InLeapYear, DayWithinYear.
  destruct (DaysInYear (YearFromTime t) =? 366); repeat case_if; simpl; lia.
Qed.

Lemma WeekDay_range t : 0 ≤ WeekDay t ≤ 6.
Proof. unfold WeekDay. Z.div_mod_to_equations. lia. Qed.
(** ** The cells of the grid *)

Lemma digit_string i : 0 ≤ i ≤ 9 → String_of_Z i = [Z.to_N (48 + i)].
Proof.
  intros Hi.
  assert (Hall : forallb (λ i, bool_decide (String_of_Z i = [Z.to_N (48 + i)]))
                         (seqZ 0 10) = true) by by vm_compute.
  rewrite forallb_forall in Hall. eapply bool_decide_eq_true_1, Hall.
  apply list_elem_of_In, elem_of_seqZ. lia.
Qed.

Section GridCells.
Context `{TimeZone}.

Lemma getDay_range (d : Date) w : getDay d = Some w → 0 ≤ w ≤ 6.
Proof.
  destruct d as [t |]; [| done]. intros [= <-]. apply WeekDay_range.
Qed.

Lemma getDate_range (d : Date) b : getDate d = Some b → 1 ≤ b ≤ 31.
Proof.
  destruct d as [t |]; [| done]. intros [= <-].
  pose proof (DateFromTime_range (LocalTime t)).
  pose proof (daysInMonth_range (YearFromTime (LocalTime t)) (MonthFromTime (LocalTime t))).
  lia.
Qed.

Lemma for_lt_getDay (d : Date) i : i ∈ for_lt 0 (getDay d) → 0 ≤ i ≤ 6.
Proof.
  unfold for_lt. destruct (getDay d) as [w |] eqn:E; [| by intros ?%elem_of_nil].
  apply getDay_range in E. intros ?%elem_of_seqZ. lia.
Qed.

Lemma for_le_getDate (d : Date) i : i ∈ for_le 1 (getDate d) → 1 ≤ i ≤ 31.
Proof.
  unfold for_le. destruct (getDate d) as [b |] eqn:E; [| by intros ?%elem_of_nil].
  apply getDate_range in E. intros ?%elem_of_seqZ. lia.
Qed.

Lemma NoDup_for_lt from bound : NoDup (for_lt from bound).
Proof. unfold for_lt. destruct bound; [apply NoDup_seqZ | constructor]. Qed.

Lemma NoDup_for_le from bound : NoDup (for_le from bound).
Proof. unfold for_le. destruct bound; [apply NoDup_seqZ | constructor]. Qed.

Lemma blank_key_not_dateStr (year month : Number) i d :
  0 ≤ i ≤ 9 → 0 ≤ d ≤ 99 →
  js "blank-" ++ String_of_Z i ≠ dateStr year month (Some d).
Proof.
  intros Hi Hd E. unfold dateStr in E. rewrite digit_string, pad2_digits in E by done.
  change (js "blank-" ++ [Z.to_N (48 + i)])
    with ([98; 108; 97; 110; 107]%N ++ [45%N; Z.to_N (48 + i)]) in E.
  rewrite !app_assoc in E. apply app_inj_2 in E as [E _]; [| done].
  change [98; 108; 97; 110; 107]%N with ([98; 108; 97; 110]%N ++ [107%N]) in E.
  apply app_inj_2 in E as [_ E]; [| done]. discriminate.
Qed.

(** X4.  For every year and month, also NaN, the keys of the items of the
    grid (blank-0, blank-1, ... and the date strings of the days) are
    pairwise different. *)
Theorem calendarGrid_keys_NoDup (year month : Number) (attendance : AttendanceData) :
  NoDup (item_key <$> calendarGrid year month attendance).
Proof.
  unfold calendarGrid. rewrite fmap_app, <- !list_fmap_compose.
  apply NoDup_app. split_and!.
  - apply NoDup_fmap_2_strong; [| apply NoDup_for_lt].
    intros i j Hi Hj E. apply for_lt_getDay in Hi, Hj. cbn in E.
    apply app_inv_head in E. rewrite !digit_string in E by lia.
    injection E as E. apply (f_equal Z.of_N) in E. rewrite !Z2N.id in E by lia. lia.
  - intros k Hb Hd. apply list_elem_of_fmap in Hb as (i & -> & Hi).
    apply list_elem_of_fmap in Hd as (d & E & Hd). cbn in E.
    apply for_lt_getDay in Hi. apply for_le_getDate in Hd.
    by apply blank_key_not_dateStr in E; [| lia | lia].
  - apply NoDup_fmap_2_strong; [| apply NoDup_for_le].
    intros i j Hi Hj E. apply for_le_getDate in Hi, Hj. cbn in E.
    apply dateStr_day_inj in E; [done | lia | lia].
Qed.

(** X3.  After a successful save of a day 1..31, the grid of the month on
    view is the grid before it with the record of that one day replaced:
    the cell of every other day, and every blank, is as before. *)
Theorem save_changes_one_cell client (record : AttendanceRecord) (st : Dashboard) (d : Z) :
  selectedDay st = Some d → 1 ≤ d ≤ 31 →
  error (on_attendance_upsert client (upsertRow record st)) = None →
  calendarGrid (getFullYear (currentDate st)) (getMonth (currentDate st))
               (attendance (handleSaveAttendance (Some client) record st).1)
  = with_record d record
      <$> calendarGrid (getFullYear (currentDate st)) (getMonth (currentDate st))
                       (attendance st).
Proof.
  intros Hd Hr Hok. unfold handleSaveAttendance.
  rewrite (truthy_day_selected st d Hd) by lia. rewrite Hok.
  cbn [fst attendance setAttendance setSelectedDay setIsModalOpen].
  unfold selectedDateStr. rewrite Hd.
  set (year := getFullYear (currentDate st)). set (month := getMonth (currentDate st)).
  unfold calendarGrid. rewrite fmap_app, <- !list_fmap_compose. f_equal.
  apply Forall_fmap_ext_1, Forall_forall. intros d' Hd'.
  apply for_le_getDate in Hd'. cbn.
  destruct (decide (d' = d)) as [-> | Hne].
  - by rewrite lookup_insert_eq.
  - rewrite lookup_insert_ne; [done |].
    intros E. apply dateStr_day_inj in E; [| lia | lia]. done.
Qed.

(** X14.  Every day cell of the view has the date string of its day as
    key and shows the record stored under that key, if any; a click passes
    the day of the cell to [onDayClick] for the tutor and does nothing for
    anyone else, whose cells also carry no pointer classes. *)
Theorem Calendar_click_only_for_tutor (now cd : Date) (attendance : AttendanceData)
    (isTutor isLoading : bool) (c : DayCell) :
  day_cell c ∈ cells (Calendar now cd attendance isTutor isLoading) →
  cell_onClick c = (if isTutor then Some (cell_day c) else None)
  ∧ (isTutor = false → cell_interactive c = [])
  ∧ cell_key c = dateStr (getFullYear cd) (getMonth cd) (Some (cell_day c))
  ∧ cell_record c
    = (λ r, (text (STATUS_COLORS (status r)), status_text (status r), comment r))
        <$> attendance !! cell_key c.
Proof.
  unfold Calendar. cbn [cells]. intros Hin.
  apply list_elem_of_fmap in Hin as (item & Hc & Hitem).
  destruct item as [key | key d record]; [done |]. injection Hc as ->.
  apply calendarGrid_day_item in Hitem as (_ & -> & ->).
  cbn [cell_onClick cell_interactive cell_key cell_day cell_record].
  split_and!; try done. by intros ->.
Qed.

End GridCells.

(** ** The mark of today *)

Lemma dayName_length w :
  0 ≤ w ≤ 6 → length (default [] (dayNames !! Z.to_nat w)) = 3%nat.
Proof.
  intros Hw. assert (w = 0 ∨ w = 1 ∨ w = 2 ∨ w = 3 ∨ w = 4 ∨ w = 5 ∨ w = 6) as Hc by lia.
  by repeat (destruct Hc as [-> | Hc]; [done |]); subst w.
Qed.

Section Today.
Context `{TimeZone}.

Lemma toDateString_Some tv :
  toDateString (Some tv)
  = default [] (dayNames !! Z.to_nat (WeekDay (LocalTime tv))) ++ js " "
    ++ default [] (monthNames !! Z.to_nat (MonthFromTime (LocalTime tv))) ++ js " "
    ++ padStart 2 (js "0") (ToString (Some (DateFromTime (LocalTime tv)))) ++ js " "
    ++ (if 0 <=? YearFromTime (LocalTime tv) then [] else js "-")
    ++ padStart 4 (js "0") (String_of_Z (Z.abs (YearFromTime (LocalTime tv)))).
Proof. reflexivity. Qed.

(** Two dates of one month have the same [toDateString] iff they are the
    same day. *)
Lemma toDateString_same_month t1 t2 :
  YearFromTime (LocalTime t1) = YearFromTime (LocalTime t2) →
  MonthFromTime (LocalTime t1) = MonthFromTime (LocalTime t2) →
  toDateString (Some t1) = toDateString (Some t2)
  ↔ DateFromTime (LocalTime t1) = DateFromTime (LocalTime t2).
Proof.
  intros Hy Hm. rewrite !toDateString_Some, Hy, Hm.
  pose proof (DateFromTime_range (LocalTime t1)) as H1.
  pose proof (DateFromTime_range (LocalTime t2)) as H2.
  pose proof (daysInMonth_range (YearFromTime (LocalTime t1)) (MonthFromTime (LocalTime t1))).
  pose proof (daysInMonth_range (YearFromTime (LocalTime t2)) (MonthFromTime (LocalTime t2))).
  split.
  - intros E. apply app_inj_1 in E as [_ E];
      [| by rewrite !dayName_length by apply WeekDay_range].
    do 3 apply app_inv_head in E.
    rewrite !pad2_digits in E by lia. cbn [app] in E.
    injection E as Ea Eb.
    apply (f_equal Z.of_N) in Ea, Eb.
    rewrite !Z2N.id in Ea, Eb by (Z.div_mod_to_equations; lia).
    Z.div_mod_to_equations. lia.
  - intros Hd. rewrite Hd.
    assert (Day (LocalTime t1) = Day (LocalTime t2)) as HD
      by (by rewrite (Day_of_fields (LocalTime t1)), (Day_of_fields (LocalTime t2)),
                     Hy, Hm, Hd).
    unfold WeekDay. by rewrite HD.
Qed.

(** X13.  When the calendar shows the month of the clock (a year other
    than 0..99, between -271820 and 275759) and the host's time zone skips
    the local midnight of no day of that month, the "today" classes are on
    the cell of the day of the clock and on no other cell, and that cell is
    in the view. *)
Theorem today_is_marked_once (now cd : Date) (attendance : AttendanceData)
    (isTutor isLoading : bool) (y m d0 : Z) :
  getFullYear now = Some y → getMonth now = Some m → getDate now = Some d0 →
  getFullYear cd = Some y → getMonth cd = Some m →
  -271820 ≤ y ≤ 275759 → ¬ (0 ≤ y ≤ 99) → monthKept y m →
  (∀ c, day_cell c ∈ cells (Calendar now cd attendance isTutor isLoading) →
        cell_today c ≠ [] ↔ cell_day c = d0)
  ∧ (∃ c, day_cell c ∈ cells (Calendar now cd attendance isTutor isLoading)
          ∧ cell_day c = d0).
Proof.
  intros Hny Hnm Hnd Hcy Hcm Hwin Hfull Hkept.
  destruct now as [tn |]; [| done].
  injection Hny as Hny. injection Hnm as Hnm. injection Hnd as Hnd.
  pose proof (MonthFromTime_range (LocalTime tn)) as Hm. rewrite Hnm in Hm.
  pose proof (DateFromTime_range (LocalTime tn)) as Hd0. rewrite Hny, Hnm, Hnd in Hd0.
  assert (Hmark : ∀ d, 1 ≤ d ≤ Gregorian.daysInMonth y m →
            toDateString (Some tn) = toDateString (Date_new (Some y) (Some m) (Some d))
            ↔ d = d0).
  { intros d Hd.
    rewrite Date_new_full_year by (done || by apply year_window_representable).
    destruct (fields_of_kept_day y m d (midnight y m d) Hm Hd (Day_midnight y m d)
                (Hkept d Hd)) as (Hy' & Hm' & Hd').
    rewrite toDateString_same_month by congruence.
    rewrite Hd', Hnd. split; congruence. }
  pose proof (daysInMonth_range y m) as Hdim.
  unfold Calendar. cbn [cells]. rewrite Hcy, Hcm.
  rewrite calendarGrid_year_window by (done || apply Hkept; lia).
  unfold gridOfMonth. split.
  - intros c Hin. apply list_elem_of_fmap in Hin as (item & Hc & Hitem).
    apply elem_of_app in Hitem as [Hitem | Hitem];
      apply list_elem_of_fmap in Hitem as (d & -> & Hd); [done |].
    injection Hc as ->. cbn [cell_today cell_day].
    apply elem_of_seqZ in Hd. rewrite <- (Hmark d) by lia.
    change (toDateString (TimeClip _))
      with (toDateString (Date_new (Some y) (Some m) (Some d))).
    case_bool_decide as Hs; split; done.
  - eexists. split.
    + apply list_elem_of_fmap. eexists (day _ d0 _). split; [reflexivity |].
      apply elem_of_app. right. apply list_elem_of_fmap. exists d0.
      split; [reflexivity |]. apply elem_of_seqZ. lia.
    + reflexivity.
Qed.

End Today.

Section TodayApia.
Local Existing Instance tz_Apia.

(** On a host in Pacific/Apia, December 30, 2011 is not a day:
    [new Date(2011, 11, 30)] is December 31.  On that day the cells of the
    30th and of the 31st both carry the "today" classes. *)
Example today_marked_twice_Apia :
  let now := Date_new (Some 2011) (Some 11) (Some 31) in
  let view := Calendar now now ∅ true false in
  toDateString (Date_new (Some 2011) (Some 11) (Some 30)) = js "Sat Dec 31 2011"
  ∧ toDateString now = js "Sat Dec 31 2011"
  ∧ (λ c, match c with
          | day_cell c => Some (cell_day c, bool_decide (cell_today c ≠ []))
          | blank_cell _ => None
          end) <$> drop 32 (cells view)
    = [Some (29, false); Some (30, true); Some (31, true)].
Proof. by vm_compute. Qed.

End TodayApia.

(** ** Rows of a response and the mapping *)

Lemma foldl_insert_other (rows : list CalendarDayData) (acc : AttendanceData) k :
  Forall (λ x, date x ≠ k) rows →
  foldl (λ acc r, <[date r := record_of r]> acc) acc rows !! k = acc !! k.
Proof.
  revert acc. induction rows as [| x rows IH]; intros acc Hall; [done |].
  apply Forall_cons in Hall as [Hx Hall]. simpl.
  rewrite IH by done. by apply lookup_insert_ne.
Qed.

(** A row is kept under its date unless a later row has the same date. *)
Lemma newAttendanceData_last (before after : list CalendarDayData) (r : CalendarDayData) :
  Forall (λ x, date x ≠ date r) after →
  newAttendanceData (before ++ r :: after) !! date r = Some (record_of r).
Proof.
  intros Hafter. unfold newAttendanceData. rewrite foldl_app. simpl.
  rewrite foldl_insert_other by done. apply lookup_insert_eq.
Qed.

Section FetchRows.
Context `{TimeZone}.

(** X11.  When the client answers the range request with rows, every row
    is in the new mapping under its date with its record, unless a later
    row of the response has the same date (the later row wins); the mapping
    has at most as many entries as the response has rows. *)
Theorem fetch_keeps_last_row client (st : Dashboard)
    (before after : list CalendarDayData) (r : CalendarDayData) :
  selectedStudentId st ≠ [] →
  on_attendance_select client (selectedStudentId st)
      (firstDay (getFullYear (currentDate st)) (getMonth (currentDate st)))
      (lastDayOfMonth (getFullYear (currentDate st)) (getMonth (currentDate st)))
  = {| data := Some (before ++ r :: after); error := None |} →
  Forall (λ x, date x ≠ date r) after →
  attendance (attendanceEffect (Some client) st).1 !! date r = Some (record_of r)
  ∧ (size (attendance (attendanceEffect (Some client) st).1)
     ≤ length (before ++ r :: after))%nat.
Proof.
  intros Hsid Hreply Hafter. rewrite attendanceEffect_selected by done.
  rewrite (fetchAttendanceForMonth_rows client _ _ st _ Hsid Hreply).
  cbn [fst attendance setAttendance setIsLoadingAttendance].
  split; [by apply newAttendanceData_last | apply newAttendanceData_size].
Qed.

End FetchRows.

(** X19.  The name in the header: for the tutor, after the selection
    effect on a non-empty roster whose names are not empty, it is the name
    of the roster student with the selected id; with an empty roster it is
    "No students"; for a parent it is the name of the student logged in. *)
Theorem selectedStudentName_of_roster (students : list Student) (st : Dashboard) :
  (students ≠ [] → (∀ s, s ∈ students → name s ≠ []) →
   ∃ s, s ∈ students
        ∧ id s = selectedStudentId (selectionEffect true students st)
        ∧ selectedStudentName tutor students (selectionEffect true students st)
          = name s)
  ∧ selectedStudentName tutor [] st = js "No students"
  ∧ (∀ s, selectedStudentName (parent s) students st = name s).
Proof.
  split_and!; [| done | done].
  intros Hne Hnames.
  destruct (selectionEffect_in_roster students st Hne) as (s & Hs & Hid).
  unfold selectedStudentName.
  destruct (List.find _ students) as [s' |] eqn:Hf.
  - apply find_id_Some in Hf as [Hs' Hid']. exists s'. split_and!; [done | done |].
    specialize (Hnames s' Hs'). by destruct (name s').
  - apply find_id_None in Hf. destruct Hf. eauto.
Qed.

(** ** The properties above on the data of the examples *)

Section MoreExamples.
Local Existing Instance tz_IST.

(** January 31, 2024 at 09:15, and fourteen months back. *)
Lemma changeMonth_any_delta_witness :
  let t := 1706672700000 in
  let st := dashboard_on (Some t) march_2024 (Some 31) in
  viewedMonth (changeMonth (-14) st) = Some (2022, 10)
  ∧ getDate (currentDate (changeMonth (-14) st)) = Some 1
  ∧ (TimeWithinDay ∘ LocalTime) <$> currentDate (changeMonth (-14) st)
    = Some (9 * msPerHour + 15 * msPerMinute).
Proof.
  destruct (changeMonth_any_delta
              (dashboard_on (Some 1706672700000) march_2024 (Some 31))
              1706672700000 2024 0 (-14)) as (Hview & Hdate & Htime & _);
    [reflexivity | vm_compute; reflexivity | vm_compute; eauto
     | apply fixedOffset_dayKept, tz_IST_fixedOffset |].
  split_and!; [exact Hview | exact Hdate |].
  rewrite Htime; [vm_compute; reflexivity |].
  apply fixedOffset_roundTrips, tz_IST_fixedOffset.
Defined.

Lemma changeMonth_compose_witness :
  let st := dashboard_on (Date_new (Some 2024) (Some 2) (Some 31)) march_2024 None in
  changeMonth 1 (changeMonth (-1) st) = changeMonth (-1 + 1) st.
Proof.
  apply (changeMonth_compose
           (dashboard_on (Date_new (Some 2024) (Some 2) (Some 31)) march_2024 None)
           1711823400000 2024 2 (-1) 1);
    [vm_compute; reflexivity | vm_compute; reflexivity | vm_compute; eauto
     | apply fixedOffset_roundTrips, tz_IST_fixedOffset].
Defined.

(** From March 31, one month back and one forward is March 1. *)
Example changeMonth_back_and_forth :
  let st := dashboard_on (Date_new (Some 2024) (Some 2) (Some 31)) march_2024 None in
  currentDate (changeMonth 1 (changeMonth (-1) st))
  = Date_new (Some 2024) (Some 2) (Some 1).
Proof. by vm_compute. Qed.

Lemma save_changes_one_cell_witness :
  let st := dashboard_on (Date_new (Some 2024) (Some 2) (Some 1)) march_2024 (Some 6) in
  calendarGrid (getFullYear (currentDate st)) (getMonth (currentDate st))
               (attendance (handleSaveAttendance (Some (client_ok [])) makeup st).1)
  = with_record 6 makeup
      <$> calendarGrid (getFullYear (currentDate st)) (getMonth (currentDate st))
                       (attendance st).
Proof.
  apply (save_changes_one_cell (client_ok []) makeup
           (dashboard_on (Date_new (Some 2024) (Some 2) (Some 1)) march_2024 (Some 6)) 6);
    [reflexivity | lia | reflexivity].
Defined.

Lemma save_unedited_modal_witness :
  let st := dashboard_on (Date_new (Some 2024) (Some 2) (Some 1)) march_2024 None in
  let opened := Dashboard_openDay 5 st modal_left_over in
  attendance (Dashboard_saveModal (Some (client_ok [])) opened.2 opened.1).1
  = attendance st.
Proof.
  destruct (save_unedited_modal (Some (client_ok []))
              (dashboard_on (Date_new (Some 2024) (Some 2) (Some 1)) march_2024 None)
              modal_left_over 5) as [Hkeep _]; [vm_compute; discriminate | lia |].
  destruct (Hkeep sick) as (_ & _ & Hsame); [vm_compute; reflexivity |].
  apply Hsame. by eexists.
Defined.

(** A record with a null comment is stored again with an empty comment. *)
Example save_unedited_null_comment :
  let st := dashboard_on (Date_new (Some 2024) (Some 2) (Some 1)) march_2024_null None in
  let opened := Dashboard_openDay 5 st modal_left_over in
  let saved := Dashboard_saveModal (Some (client_ok [])) opened.2 opened.1 in
  attendance st !! js "2024-03-05" = Some {| status := holiday; comment := None |}
  ∧ attendance saved.1 !! js "2024-03-05"
    = Some {| status := holiday; comment := Some [] |}
  ∧ saved.2 = [Sent (attendance_upsert
                       {| student_id := js "asha"; date := js "2024-03-05";
                          record_of := {| status := holiday; comment := Some [] |} |})].
Proof. by vm_compute. Qed.

Lemma modal_opens_on_cell_record_witness :
  let st := dashboard_on (Date_new (Some 2024) (Some 2) (Some 1)) march_2024 None in
  isModalOpen (handleDayClick 5 st) = true
  ∧ selectedDateStr (handleDayClick 5 st) = js "2024-03-05"
  ∧ currentRecordForModal (handleDayClick 5 st) = Some sick
  ∧ attendance (handleDayClick 5 st) = attendance st.
Proof.
  apply (modal_opens_on_cell_record
           (dashboard_on (Date_new (Some 2024) (Some 2) (Some 1)) march_2024 None)
           (js "2024-03-05") 5 (Some sick)); [done |].
  apply (list_elem_of_lookup_2 _ 9%nat). by vm_compute.
Defined.

Lemma modal_open_has_day_witness :
  let st := dashboard_on (Date_new (Some 2024) (Some 2) (Some 1)) march_2024 None in
  is_Some (selectedDay (Dashboard_step (Some (client_ok [])) (ClickDay 5) st).1).
Proof.
  apply (modal_open_has_day (Some (client_ok [])) (ClickDay 5)
           (dashboard_on (Date_new (Some 2024) (Some 2) (Some 1)) march_2024 None));
    [by vm_compute | by vm_compute].
Defined.

Lemma fetch_keeps_last_row_witness :
  let st := dashboard_on (Date_new (Some 2024) (Some 2) (Some 1)) ∅ None in
  let first := {| student_id := js "asha"; date := js "2024-03-05"; record_of := sick |} in
  let second := {| student_id := js "asha"; date := js "2024-03-05"; record_of := makeup |} in
  attendance (attendanceEffect (Some (client_ok [first; second])) st).1 !! js "2024-03-05"
  = Some makeup
  ∧ (size (attendance (attendanceEffect (Some (client_ok [first; second])) st).1) ≤ 2)%nat.
Proof.
  apply (fetch_keeps_last_row
           (client_ok [ {| student_id := js "asha"; date := js "2024-03-05"; record_of := sick |};
                        {| student_id := js "asha"; date := js "2024-03-05"; record_of := makeup |} ])
           (dashboard_on (Date_new (Some 2024) (Some 2) (Some 1)) ∅ None)
           [ {| student_id := js "asha"; date := js "2024-03-05"; record_of := sick |} ]
           []
           {| student_id := js "asha"; date := js "2024-03-05"; record_of := makeup |});
    [done | reflexivity | constructor].
Defined.

Lemma addStudent_sends_trimmed_name_witness :
  js "Meera" = trim (js "  Meera ") ∧ js "Meera" ≠ [].
Proof.
  pose proof (addStudent_sends_trimmed_name (Some (client_ok [])) (js "  Meera ")
                roster_2 (js "Meera")) as Hname.
  destruct Hname as (Ht & Hne & _); [| by split].
  apply (list_elem_of_lookup_2 _ 0%nat). by vm_compute.
Defined.

Lemma today_is_marked_once_witness :
  let now := (λ t, t + 12 * msPerHour) <$> Date_new (Some 2024) (Some 2) (Some 5) in
  let cd := Date_new (Some 2024) (Some 2) (Some 1) in
  ∃ c, day_cell c ∈ cells (Calendar now cd march_2024 true false) ∧ cell_day c = 5.
Proof.
  apply (today_is_marked_once
           ((λ t, t + 12 * msPerHour) <$> Date_new (Some 2024) (Some 2) (Some 5))
           (Date_new (Some 2024) (Some 2) (Some 1)) march_2024 true false
           2024 2 5);
    [vm_compute; reflexivity | vm_compute; reflexivity | vm_compute; reflexivity
     | vm_compute; reflexivity | vm_compute; reflexivity | lia | lia
     | apply fixedOffset_monthKept, tz_IST_fixedOffset].
Defined.

Lemma Calendar_click_only_for_tutor_witness :
  cell_onClick cell_march_5 = Some (cell_day cell_march_5)
  ∧ cell_key cell_march_5 = js "2024-03-05".
Proof.
  pose proof (Calendar_click_only_for_tutor
                (Date_new (Some 2024) (Some 2) (Some 17))
                (Date_new (Some 2024) (Some 2) (Some 1)) march_2024 true false
                cell_march_5) as Hcell.
  destruct Hcell as (Hclick & _ & Hkey & _).
  - apply (list_elem_of_lookup_2 _ 9%nat). by vm_compute.
  - split; [exact Hclick | by rewrite Hkey].
Defined.

Lemma selectedDateForModal_fields_witness :
  let st := dashboard_on (Date_new (Some 2024) (Some 2) (Some 1)) march_2024 (Some 31) in
  ∃ dt, selectedDateForModal st = Some dt
        ∧ getFullYear dt = Some 2024 ∧ getMonth dt = Some 2 ∧ getDate dt = Some 31
        ∧ getDay dt = Some (Gregorian.weekday 2024 2 31).
Proof.
  apply (selectedDateForModal_fields
           (dashboard_on (Date_new (Some 2024) (Some 2) (Some 1)) march_2024 (Some 31))
           2024 2 31);
    [by vm_compute | done | lia | by vm_compute | by vm_compute
     | vm_compute; reflexivity].
Defined.

(** With day 31 still selected in April the heading shows May 1. *)
Example selectedDateForModal_overflow :
  let st := dashboard_on (Date_new (Some 2024) (Some 3) (Some 1)) ∅ (Some 31) in
  selectedDateForModal st = Some (Date_new (Some 2024) (Some 4) (Some 1))
  ∧ selectedDateStr st = js "2024-04-31".
Proof. by vm_compute. Qed.

Lemma dateStr_iso_shape_witness :
  dateStr (Some 2024) (Some 2) (Some 5) = js "2024-03-05".
Proof.
  rewrite (dateStr_iso_shape 2024 2 5) by lia. by vm_compute.
Defined.

Lemma dateStr_inj_witness : 2024 = 2024 ∧ 2 = 2 ∧ 5 = 5.
Proof.
  apply (dateStr_inj 2024 2 5 2024 2 5); (lia || reflexivity).
Defined.

End MoreExamples.
